(** * xlsx_to_csv: a shallow embedding of [xlsx_to_csv.py] and its properties

    The development follows the source file top-down:

    - the Python values the script relies on (characters, [str.strip],
      [int], [str], [range], list indexing, exceptions);
    - the address codec ([column_index_to_letter], [excel_cell_to_coords]);
    - the ElementTree view of a part ([iter], [findall], [find], [get]);
    - [parse_shared_strings], [parse_worksheet_xml], [cells_to_csv];
    - [convert_xlsx_to_csv] and [main], which return the events they
      produce (console messages, directories made, CSV files written)
      next to their result.

    Modelling conventions.  A Python [str] is the list of its code points
    ([pystr]); a literal is written [u "..."].  The decimal digits, which
    the regular expression class [\d] and [int] read, and the white space,
    which [str.strip] and [int] skip, are those of the Unicode database of
    CPython 3.11 (Unicode 14.0).  Python integers are [Z]; [int] and [str]
    raise [ValueError] past [sys.get_int_max_str_digits()] digits, 4300 by
    default.  The dictionary [cells] is a [gmap (Z * Z) pystr].  A raised
    exception is the [Raise] case of [Py.outcome].  A package member is
    either malformed or an element tree: the XML parser itself, the zip
    container, [os.makedirs] and [open] are not modelled further, and the
    last two always succeed. *)

From Stdlib Require Import ZArith NArith Ascii String List Lia.
From stdpp Require Import base option list gmap strings.

Local Open Scope Z_scope.

(** ** Python runtime values *)

(** A Python string: its code points. *)
Abbreviation pystr := (list N) (only parsing).

(** The code point of a character literal. *)
Definition cp (a : ascii) : N := N_of_ascii a.

(** A string literal. *)
Definition u (s : string) : pystr :=
  map N_of_ascii (String.list_ascii_of_string s).

Module Py.

Inductive exn : Type :=
| ValueError
| IndexError
| TypeError
| KeyError
| ParseError
| BadZipFile
| FileNotFoundError.

Inductive outcome (A : Type) : Type :=
| Return (a : A)
| Raise (e : exn).
Arguments Return {A} a.
Arguments Raise {A} e.

Definition bind {A B} (m : outcome A) (k : A -> outcome B) : outcome B :=
  match m with
  | Return a => k a
  | Raise e => Raise e
  end.

(** [try: body except (e1, e2): handler] *)
Definition try_except {A} (body : outcome A) (caught : exn -> bool)
    (handler : outcome A) : outcome A :=
  match body with
  | Return a => Return a
  | Raise e => if caught e then handler else Raise e
  end.

Definition ord (c : N) : Z := Z.of_N c.
Definition chr (z : Z) : N := Z.to_N z.

(** The class [[A-Z]]. *)
Definition is_upper (c : N) : bool :=
  (ord (cp "A") <=? ord c) && (ord c <=? ord (cp "Z")).

(** The class [[0-9]]. *)
Definition is_ascii_digit (c : N) : bool :=
  (ord (cp "0") <=? ord c) && (ord c <=? ord (cp "9")).

(** The characters of general category Nd come in blocks of ten
    consecutive code points, of values 0 to 9; these are the first code
    points of the blocks. *)
Definition decimal_blocks : list Z :=
  [48; 1632; 1776; 1984; 2406; 2534; 2662; 2790; 2918; 3046; 3174; 3302;
   3430; 3558; 3664; 3792; 3872; 4160; 4240; 6112; 6160; 6470; 6608; 6784;
   6800; 6992; 7088; 7232; 7248; 42528; 43216; 43264; 43472; 43504; 43600;
   44016; 65296; 66720; 68912; 69734; 69872; 69942; 70096; 70384; 70736;
   70864; 71248; 71360; 71472; 71904; 72016; 72784; 73040; 73120; 92768;
   92864; 93008; 120782; 120792; 120802; 120812; 120822; 123200; 123632;
   125264; 130032].

(** The value of a decimal digit, as [unicodedata.decimal] gives it. *)
Definition decimal (c : N) : option Z :=
  match List.find (fun b => (b <=? ord c) && (ord c <? b + 10))
                  decimal_blocks with
  | Some b => Some (ord c - b)
  | None => None
  end.

(** The class [\d] of a pattern on strings. *)
Definition is_digit (c : N) : bool :=
  match decimal c with
  | Some _ => true
  | None => false
  end.

(** [str.isspace] *)
Definition is_space (c : N) : bool :=
  let n := ord c in
  ((9 <=? n) && (n <=? 13)) || ((28 <=? n) && (n <=? 32))
  || (n =? 133) || (n =? 160) || (n =? 5760)
  || ((8192 <=? n) && (n <=? 8202))
  || (n =? 8232) || (n =? 8233) || (n =? 8239) || (n =? 8287)
  || (n =? 12288).

(** The white space [int] skips around a number: the same, less the four
    separators U+001C to U+001F. *)
Definition is_int_space (c : N) : bool :=
  is_space c && negb ((28 <=? ord c) && (ord c <=? 31)).

Definition is_empty {A} (s : list A) : bool :=
  match s with
  | [] => true
  | _ :: _ => false
  end.

Fixpoint lstrip_by (space : N -> bool) (s : pystr) : pystr :=
  match s with
  | [] => []
  | c :: s' => if space c then lstrip_by space s' else s
  end.

Fixpoint rstrip_by (space : N -> bool) (s : pystr) : pystr :=
  match s with
  | [] => []
  | c :: s' =>
      let r := rstrip_by space s' in
      if space c && is_empty r then [] else c :: r
  end.

(** [s.strip()] *)
Definition strip (s : pystr) : pystr :=
  rstrip_by is_space (lstrip_by is_space s).

(** Truth value of a string: [if s:] *)
Definition truthy (s : pystr) : bool := negb (is_empty s).

(** [x or ''] for an optional text. *)
Definition or_empty (t : option pystr) : pystr :=
  match t with
  | Some s => s
  | None => []
  end.

(** Decimal digits with single underscores allowed between digits, as
    accepted by [int].  [seen] records that the previous character was a
    digit. *)
Fixpoint int_digits (acc : Z) (seen : bool) (s : pystr) : option Z :=
  match s with
  | [] => if seen then Some acc else None
  | c :: s' =>
      match decimal c with
      | Some d => int_digits (acc * 10 + d) true s'
      | None =>
          if N.eqb c (cp "_") then
            (if seen then int_digits acc false s' else None)
          else None
      end
  end.

(** [sys.get_int_max_str_digits()] *)
Definition max_str_digits : Z := 4300.

(** [int(s)] for a string: a malformed literal and a literal of more than
    [max_str_digits] digits both raise [ValueError]. *)
Definition int_of_str (s : pystr) : outcome Z :=
  let t := rstrip_by is_int_space (lstrip_by is_int_space s) in
  let body :=
    match t with
    | c :: r =>
        if N.eqb c (cp "-") then option_map Z.opp (int_digits 0 false r)
        else if N.eqb c (cp "+") then int_digits 0 false r
        else int_digits 0 false (c :: r)
    | [] => None
    end in
  match body with
  | Some z =>
      if max_str_digits <? Z.of_nat (length (List.filter is_digit t))
      then Raise ValueError
      else Return z
  | None => Raise ValueError
  end.

(** [int(x)] where [x] is an element's [text]: [None] is not a valid
    argument and raises [TypeError]. *)
Definition int (x : option pystr) : outcome Z :=
  match x with
  | None => Raise TypeError
  | Some s => int_of_str s
  end.

(** Digits of a number that is not negative, most significant first,
    prepended to [acc].  [fuel] bounds the number of digits. *)
Fixpoint str_loop (fuel : nat) (n : Z) (acc : pystr) : pystr :=
  match fuel with
  | O => acc
  | S fuel' =>
      let acc := chr (n mod 10 + ord (cp "0")) :: acc in
      if 0 <? n / 10 then str_loop fuel' (n / 10) acc else acc
  end.

Definition digits_fuel (n : Z) : nat := S (Z.to_nat (Z.log2 n)).

(** [str(n)] for an integer: [ValueError] when it has more than
    [max_str_digits] digits. *)
Definition str (n : Z) : outcome pystr :=
  let digits := str_loop (digits_fuel (Z.abs n)) (Z.abs n) [] in
  if max_str_digits <? Z.of_nat (length digits) then Raise ValueError
  else Return (if n <? 0 then cp "-" :: digits else digits).

(** [range(n)] *)
Definition range (n : Z) : list Z := map Z.of_nat (seq 0 (Z.to_nat n)).

(** [l[i]] with Python's negative indices. *)
Definition getitem {A} (l : list A) (i : Z) : outcome A :=
  let len := Z.of_nat (length l) in
  let j := if i <? 0 then i + len else i in
  if (0 <=? j) && (j <? len) then
    match nth_error l (Z.to_nat j) with
    | Some a => Return a
    | None => Raise IndexError
    end
  else Raise IndexError.

(** [a <= b] on strings: by code points, a prefix first. *)
Fixpoint leb (a b : pystr) : bool :=
  match a, b with
  | [], _ => true
  | _ :: _, [] => false
  | x :: a', y :: b' =>
      if N.ltb x y then true else if N.eqb x y then leb a' b' else false
  end.

(** [s.startswith(prefix)] *)
Fixpoint startswith (s prefix : pystr) : bool :=
  match prefix, s with
  | [], _ => true
  | _ :: _, [] => false
  | x :: p', y :: s' => N.eqb x y && startswith s' p'
  end.

(** [s.endswith(suffix)] *)
Fixpoint endswith (s suffix : pystr) : bool :=
  bool_decide (s = suffix)
  || match s with
     | [] => false
     | _ :: s' => endswith s' suffix
     end.

End Py.

#[global] Instance outcome_ret : MRet Py.outcome := @Py.Return.
#[global] Instance outcome_bind : MBind Py.outcome :=
  fun A B k m => Py.bind m k.

(** ** Address codec *)

(** [column_index_to_letter]: the [while col_num > 0] loop. *)
Fixpoint column_index_to_letter_loop (fuel : nat) (col_num : Z)
    (result : pystr) : pystr :=
  match fuel with
  | O => result
  | S fuel' =>
      if 0 <? col_num then
        let col_num := col_num - 1 in
        let result := Py.chr (col_num mod 26 + Py.ord (cp "A")) :: result in
        column_index_to_letter_loop fuel' (col_num / 26) result
      else result
  end.

Definition column_index_to_letter (col_num : Z) : pystr :=
  column_index_to_letter_loop (Py.digits_fuel col_num) col_num [].

(** The longest prefix of [s] made of characters in the class [p], and
    what follows it. *)
Fixpoint span (p : N -> bool) (s : pystr) : pystr * pystr :=
  match s with
  | [] => ([], [])
  | c :: s' =>
      if p c then let '(a, b) := span p s' in (c :: a, b)
      else ([], s)
  end.

(** [re.match(r'([A-Z]+)(\d+)', cell_ref)]: anchored at the start of the
    string only.  The two classes are disjoint, so the greedy split is the
    only candidate. *)
Definition match_cell_ref (cell_ref : pystr) : option (pystr * pystr) :=
  let '(letters, rest) := span Py.is_upper cell_ref in
  let '(digits, _) := span Py.is_digit rest in
  if Py.is_empty letters || Py.is_empty digits then None
  else Some (letters, digits).

(** Lines 27-29: [for char in col_letters: col_num = col_num * 26 + ...] *)
Fixpoint col_letters_loop (col_num : Z) (col_letters : pystr) : Z :=
  match col_letters with
  | [] => col_num
  | char :: rest =>
      col_letters_loop
        (col_num * 26 + (Py.ord char - Py.ord (cp "A") + 1)) rest
  end.

Definition letters_to_number (col_letters : pystr) : Z :=
  col_letters_loop 0 col_letters.

Definition excel_cell_to_coords (cell_ref : pystr)
  : Py.outcome (option Z * option Z) :=
  match match_cell_ref cell_ref with
  | None => Py.Return (None, None)
  | Some (col_letters, row_digits) =>
      row_num ← Py.int (Some row_digits);
      let col_num := letters_to_number col_letters in
      Py.Return (Some (row_num - 1), Some (col_num - 1))
  end.

(** Modelled from the spec: [encode(row, col)].  The script has no function
    producing a whole reference; the spec's [encode] is the column letters
    of [column_index_to_letter] followed by the 1-based row number. *)
Definition encode (row col : Z) : Py.outcome pystr :=
  row_digits ← Py.str (row + 1);
  Py.Return (column_index_to_letter (col + 1) ++ row_digits).

(** ** ElementTree *)

#[warnings="-register-all"]
Inductive Element : Type :=
| Elem (tag : pystr) (attrib : gmap pystr pystr) (text : option pystr)
       (children : list Element).

Definition tag (e : Element) : pystr := let 'Elem t _ _ _ := e in t.
Definition attrib (e : Element) : gmap pystr pystr :=
  let 'Elem _ a _ _ := e in a.
Definition text (e : Element) : option pystr := let 'Elem _ _ x _ := e in x.
Definition children (e : Element) : list Element :=
  let 'Elem _ _ _ cs := e in cs.

(** [e.get(key)] *)
Definition get (e : Element) (key : pystr) : option pystr := attrib e !! key.

(** [e.iter()]: the element and its descendants in document order. *)
Fixpoint iter (e : Element) : list Element :=
  match e with
  | Elem _ _ _ cs => e :: flat_map iter cs
  end.

(** [e.findall('.//' + name)]: every proper descendant with that tag. *)
Definition findall (e : Element) (name : pystr) : list Element :=
  filter (fun d => tag d = name) (flat_map iter (children e)).

(** [e.find('.//' + name)] *)
Definition find (e : Element) (name : pystr) : option Element :=
  head (findall e name).

Definition ns : pystr :=
  u "{http://schemas.openxmlformats.org/spreadsheetml/2006/main}".
Definition tag_si : pystr := ns ++ u "si".
Definition tag_t : pystr := ns ++ u "t".
Definition tag_row : pystr := ns ++ u "row".
Definition tag_c : pystr := ns ++ u "c".
Definition tag_v : pystr := ns ++ u "v".

(** The bytes of a package member, as the XML parser sees them. *)
Inductive part : Type :=
| Malformed
| Xml (root : Element).

(** [ET.fromstring] / [ET.parse(f).getroot()] *)
Definition fromstring (xml_content : part) : Py.outcome Element :=
  match xml_content with
  | Malformed => Py.Raise Py.ParseError
  | Xml root => Py.Return root
  end.

(** ** Console and file effects *)

Inductive message : Type :=
| MsgNoSharedStrings                      (* line 46 *)
| MsgNoWorksheets                         (* line 128 *)
| MsgFoundWorksheets (n : Z)              (* line 131 *)
| MsgProcessing (worksheet_file : pystr)  (* line 138 *)
| MsgNoData (sheet_name : pystr)          (* line 148 *)
| MsgFoundData (n rows cols : Z)          (* line 151 *)
| MsgSaved (csv_filename : pystr)         (* line 157 *)
| MsgFileHeader (xlsx_file : pystr)       (* lines 171-173 *)
| MsgNotFound (xlsx_file : pystr)         (* line 176 *)
| MsgConverted (xlsx_file : pystr)        (* line 182 *)
| MsgFileError (xlsx_file : pystr) (e : Py.exn) (* line 185 *)
| MsgSummary (successful failed total : Z) (* lines 189-194 *)
| MsgAllSaved                             (* line 197 *)
| MsgHadErrors (failed : Z).              (* line 199 *)

Inductive event : Type :=
| Stdout (m : message)
| MakeDirs (dir : pystr)
| WriteCsv (output_file : pystr) (rows : list (list pystr)).

(** A computation that prints and writes files, and returns or raises. *)
Definition io (A : Type) : Type := list event * Py.outcome A.

Definition io_ret {A} (a : A) : io A := ([], Py.Return a).
Definition io_bind {A B} (m : io A) (k : A -> io B) : io B :=
  match m with
  | (log, Py.Return a) => let '(log', r) := k a in (log ++ log', r)
  | (log, Py.Raise e) => (log, Py.Raise e)
  end.
Definition emit (ev : event) : io unit := ([ev], Py.Return tt).
Definition print (m : message) : io unit := emit (Stdout m).
Definition lift {A} (m : Py.outcome A) : io A := ([], m).

#[global] Instance io_mret : MRet io := @io_ret.
#[global] Instance io_mbind : MBind io := fun A B k m => io_bind m k.

(** ** [parse_shared_strings] *)

Record ZipFile : Type := { members : list (pystr * part) }.

(** [zip_file.namelist()] *)
Definition namelist (z : ZipFile) : list pystr := map fst (members z).

(** [zip_file.open(name)]: the last member recorded under [name];
    [KeyError] when there is none. *)
Definition zip_open (z : ZipFile) (name : pystr) : Py.outcome part :=
  match head (filter (fun m => fst m = name) (rev (members z))) with
  | Some m => Py.Return (snd m)
  | None => Py.Raise Py.KeyError
  end.

Definition shared_string_of (si : Element) : pystr :=
  match find si tag_t with
  | Some t => Py.or_empty (text t)
  | None => []
  end.

(** The [try] block opens and parses the part; only the [KeyError] of a
    missing member is handled. *)
Definition parse_shared_strings (zip_file : ZipFile) : io (list pystr) :=
  match zip_open zip_file (u "xl/sharedStrings.xml") with
  | Py.Return f =>
      root ← lift (fromstring f);
      mret (fold_left (fun shared_strings si =>
                         shared_strings ++ [shared_string_of si])
                      (findall root tag_si) [])
  | Py.Raise Py.KeyError =>
      _ ← print MsgNoSharedStrings;
      mret []
  | Py.Raise e => lift (Py.Raise e)
  end.

(** ** [parse_worksheet_xml] *)

Record grid : Type := Grid {
  cells : gmap (Z * Z) pystr;
  max_row : Z;
  max_col : Z
}.

Definition empty_grid : grid := Grid ∅ 0 0.

Definition is_lookup_error (e : Py.exn) : bool :=
  match e with
  | Py.ValueError | Py.IndexError => true
  | _ => false
  end.

(** Lines 70-84: the value of a cell, before the blank test. *)
Definition resolve_cell_value (shared_strings : list pystr) (cell : Element)
  : Py.outcome pystr :=
  let cell_value := [] in
  match find cell tag_v with
  | Some value_elem =>
      let cell_type := get cell (u "t") in
      if bool_decide (cell_type = Some (u "s")) then
        Py.try_except
          (string_index ← Py.int (text value_elem);
           if string_index <? Z.of_nat (length shared_strings) then
             Py.getitem shared_strings string_index
           else Py.Return cell_value)
          is_lookup_error
          (Py.Return (Py.or_empty (text value_elem)))
      else Py.Return (Py.or_empty (text value_elem))
  | None => Py.Return cell_value
  end.

(** Lines 86-90: [if cell_value.strip(): ...] *)
Definition store_cell (g : grid) (row_idx col_idx : Z) (cell_value : pystr)
  : grid :=
  if Py.truthy (Py.strip cell_value) then
    Grid (<[(row_idx, col_idx) := cell_value]> (cells g))
         (Z.max (max_row g) row_idx)
         (Z.max (max_col g) col_idx)
  else g.

(** The body of the inner [for cell in ...] loop; returning [g] unchanged
    is [continue]. *)
Definition cell_step (shared_strings : list pystr) (g : grid)
    (cell : Element) : Py.outcome grid :=
  match get cell (u "r") with
  | None => Py.Return g
  | Some cell_ref =>
      if Py.is_empty cell_ref then Py.Return g
      else
        coords ← excel_cell_to_coords cell_ref;
        match coords with
        | (Some row_idx, Some col_idx) =>
            cell_value ← resolve_cell_value shared_strings cell;
            Py.Return (store_cell g row_idx col_idx cell_value)
        | _ => Py.Return g
        end
  end.

(** A [for] loop whose body may raise. *)
Fixpoint for_each {A S} (body : S -> A -> Py.outcome S) (l : list A) (s : S)
  : Py.outcome S :=
  match l with
  | [] => Py.Return s
  | a :: l' => s' ← body s a; for_each body l' s'
  end.

Definition parse_worksheet_xml (xml_content : part)
    (shared_strings : list pystr) : Py.outcome grid :=
  root ← fromstring xml_content;
  for_each
    (fun g row =>
       for_each (cell_step shared_strings) (findall row tag_c) g)
    (findall root tag_row) empty_grid.

(** ** [cells_to_csv] *)

(** [cells.get((row_idx, col_idx), '')] *)
Definition cell_at (cells : gmap (Z * Z) pystr) (row_idx col_idx : Z)
  : pystr :=
  default [] (cells !! (row_idx, col_idx)).

Definition row_data_of (cells : gmap (Z * Z) pystr) (max_col row_idx : Z)
  : list pystr :=
  fold_left (fun row_data col_idx => row_data ++ [cell_at cells row_idx col_idx])
            (Py.range (max_col + 1)) [].

(** [any(cell.strip() for cell in row_data)] *)
Definition any_nonblank (row_data : list pystr) : bool :=
  existsb (fun cell => Py.truthy (Py.strip cell)) row_data.

(** The rows handed to [writer.writerow], in order. *)
Definition csv_rows (cells : gmap (Z * Z) pystr) (max_row max_col : Z)
  : list (list pystr) :=
  fold_left (fun written row_idx =>
               let row_data := row_data_of cells max_col row_idx in
               if any_nonblank row_data then written ++ [row_data]
               else written)
            (Py.range (max_row + 1)) [].

Definition cells_to_csv (cells : gmap (Z * Z) pystr) (max_row max_col : Z)
    (output_file : pystr) : io unit :=
  emit (WriteCsv output_file (csv_rows cells max_row max_col)).

(** ** Paths, names and ordering used by the driver *)

Module os_path.

(** [p.rpartition(sep)] when [sep] occurs: what precedes and what follows
    its last occurrence. *)
Fixpoint rpartition (sep : N) (p : pystr) : option (pystr * pystr) :=
  match p with
  | [] => None
  | c :: p' =>
      match rpartition sep p' with
      | Some (a, b) => Some (c :: a, b)
      | None => if N.eqb c sep then Some ([], p') else None
      end
  end.

(** [head.rstrip('/')] *)
Definition rstrip_sep (s : pystr) : pystr :=
  Py.rstrip_by (N.eqb (cp "/")) s.

Definition basename (p : pystr) : pystr :=
  match rpartition (cp "/") p with
  | Some (_, tail) => tail
  | None => p
  end.

Definition dirname (p : pystr) : pystr :=
  match rpartition (cp "/") p with
  | Some (head, _) =>
      let head := head ++ u "/" in
      if forallb (N.eqb (cp "/")) head then head else rstrip_sep head
  | None => []
  end.

(** [os.path.splitext(name)[0]] for a [name] without separator. *)
Definition splitext_root (name : pystr) : pystr :=
  match rpartition (cp ".") name with
  | Some (root, _) =>
      if forallb (N.eqb (cp ".")) root then name else root
  | None => name
  end.

Definition join (a b : pystr) : pystr :=
  if Py.startswith b (u "/") then b
  else if Py.is_empty a || Py.endswith a (u "/") then a ++ b
  else a ++ u "/" ++ b.

End os_path.

Fixpoint strip_prefix (p s : pystr) : option pystr :=
  match p, s with
  | [], _ => Some s
  | a :: p', b :: s' => if N.eqb a b then strip_prefix p' s' else None
  | _ :: _, [] => None
  end.

(** [re.search(r'sheet(\d+)', worksheet_file)]: group 1 of the leftmost
    match. *)
Fixpoint search_sheet_num (worksheet_file : pystr) : option pystr :=
  let here :=
    match strip_prefix (u "sheet") worksheet_file with
    | Some rest =>
        let '(digits, _) := span Py.is_digit rest in
        if Py.is_empty digits then None else Some digits
    | None => None
    end in
  match here with
  | Some digits => Some digits
  | None =>
      match worksheet_file with
      | [] => None
      | _ :: rest => search_sheet_num rest
      end
  end.

Fixpoint insert_sorted (x : pystr) (l : list pystr) : list pystr :=
  match l with
  | [] => [x]
  | y :: l' => if Py.leb x y then x :: l else y :: insert_sorted x l'
  end.

(** [sorted(names)]: strings ordered by code point. *)
Definition sorted (l : list pystr) : list pystr :=
  fold_right insert_sorted [] l.

(** ** [convert_xlsx_to_csv] *)

Inductive file : Type :=
| NotAZip
| Zip (z : ZipFile).

(** [ZipFile(xlsx_file, 'r')] *)
Definition open_zip (fs : gmap pystr file) (xlsx_file : pystr)
  : Py.outcome ZipFile :=
  match fs !! xlsx_file with
  | Some (Zip z) => Py.Return z
  | Some NotAZip => Py.Raise Py.BadZipFile
  | None => Py.Raise Py.FileNotFoundError
  end.

Definition is_worksheet_file (f : pystr) : bool :=
  Py.startswith f (u "xl/worksheets/sheet") && Py.endswith f (u ".xml").

(** Lines 134-157: the body of [for worksheet_file in sorted(...)]. *)
Definition worksheet_step (zip_file : ZipFile) (shared_strings : list pystr)
    (output_dir base_name worksheet_file : pystr) : io unit :=
  let sheet_name :=
    match search_sheet_num worksheet_file with
    | Some num => u "sheet" ++ num
    | None => u "sheet"
    end in
  _ ← print (MsgProcessing worksheet_file);
  xml_content ← lift (zip_open zip_file worksheet_file);
  g ← lift (parse_worksheet_xml xml_content shared_strings);
  if bool_decide (cells g = ∅) then print (MsgNoData sheet_name)
  else
    _ ← print (MsgFoundData (Z.of_nat (size (cells g)))
                            (max_row g + 1) (max_col g + 1));
    let csv_filename :=
      os_path.join output_dir (base_name ++ u "_" ++ sheet_name ++ u ".csv") in
    _ ← cells_to_csv (cells g) (max_row g) (max_col g) csv_filename;
    print (MsgSaved csv_filename).

(** A [for] loop of effectful bodies: the first exception ends it. *)
Fixpoint io_for_each {A} (body : A -> io unit) (l : list A) : io unit :=
  match l with
  | [] => mret tt
  | a :: l' => _ ← body a; io_for_each body l'
  end.

(** Lines 112-113: [output_dir] after the default is applied. *)
Definition output_dir_of (xlsx_file : pystr) (output_dir : option pystr)
  : pystr :=
  match output_dir with
  | None =>
      let d := os_path.dirname xlsx_file in
      if Py.is_empty d then u "." else d
  | Some d => d
  end.

(** Line 118 *)
Definition base_name_of (xlsx_file : pystr) : pystr :=
  os_path.splitext_root (os_path.basename xlsx_file).

(** Line 125 *)
Definition worksheet_files_of (zip_file : ZipFile) : list pystr :=
  List.filter is_worksheet_file (namelist zip_file).

Definition convert_xlsx_to_csv (fs : gmap pystr file) (xlsx_file : pystr)
    (output_dir : option pystr) : io unit :=
  let output_dir := output_dir_of xlsx_file output_dir in
  _ ← emit (MakeDirs output_dir);
  let base_name := base_name_of xlsx_file in
  zip_file ← lift (open_zip fs xlsx_file);
  shared_strings ← parse_shared_strings zip_file;
  let worksheet_files := worksheet_files_of zip_file in
  match worksheet_files with
  | [] => print MsgNoWorksheets
  | _ =>
      _ ← print (MsgFoundWorksheets (Z.of_nat (length worksheet_files)));
      io_for_each
        (worksheet_step zip_file shared_strings output_dir base_name)
        (sorted worksheet_files)
  end.

(** ** [main] *)

Record tally : Type := Tally {
  successful_conversions : Z;
  failed_conversions : Z
}.

(** Lines 170-186: one iteration of [for xlsx_file in args.xlsx_files];
    [except Exception] catches whatever the conversion raises. *)
Definition main_step (fs : gmap pystr file) (output : option pystr)
    (st : list event * tally) (xlsx_file : pystr) : list event * tally :=
  let '(log, t) := st in
  let log := log ++ [Stdout (MsgFileHeader xlsx_file)] in
  match fs !! xlsx_file with
  | None =>
      (log ++ [Stdout (MsgNotFound xlsx_file)],
       Tally (successful_conversions t) (failed_conversions t + 1))
  | Some _ =>
      match convert_xlsx_to_csv fs xlsx_file output with
      | (log', Py.Return _) =>
          (log ++ log' ++ [Stdout (MsgConverted xlsx_file)],
           Tally (successful_conversions t + 1) (failed_conversions t))
      | (log', Py.Raise e) =>
          (log ++ log' ++ [Stdout (MsgFileError xlsx_file e)],
           Tally (successful_conversions t) (failed_conversions t + 1))
      end
  end.

Definition main (fs : gmap pystr file) (xlsx_files : list pystr)
    (output : option pystr) : list event * tally :=
  let '(log, t) :=
    fold_left (main_step fs output) xlsx_files ([], Tally 0 0) in
  let summary :=
    [Stdout (MsgSummary (successful_conversions t) (failed_conversions t)
                       (Z.of_nat (length xlsx_files)))]
    ++ (if 0 <? successful_conversions t then [Stdout MsgAllSaved] else [])
    ++ (if 0 <? failed_conversions t
        then [Stdout (MsgHadErrors (failed_conversions t))] else []) in
  (log ++ summary, t).

(** ** Vocabulary of the statements *)

(** The loop of [column_index_to_letter] started from an arbitrary
    [result]. *)
Definition to_letters (col_num : Z) (result : pystr) : pystr :=
  column_index_to_letter_loop (Py.digits_fuel col_num) col_num result.

(** The digits of [str(n)] for [n >= 0], started from an arbitrary
    suffix. *)
Definition to_digits (n : Z) (acc : pystr) : pystr :=
  Py.str_loop (Py.digits_fuel n) n acc.

(** Value of a string of decimal digits read after the prefix [acc]. *)
Fixpoint dec_value (acc : Z) (digits : pystr) : Z :=
  match digits with
  | [] => acc
  | c :: rest =>
      let d := match Py.decimal c with Some d => d | None => 0 end in
      dec_value (acc * 10 + d) rest
  end.

(** [[A-Z]+] *)
Definition letters (s : pystr) : Prop :=
  s ≠ [] /\ forallb Py.is_upper s = true.

(** [\d+]: decimal digits of any script. *)
Definition digits (s : pystr) : Prop :=
  s ≠ [] /\ forallb Py.is_digit s = true.

(** [[0-9]+] *)
Definition ascii_digits (s : pystr) : Prop :=
  s ≠ [] /\ forallb Py.is_ascii_digit s = true.

(** The number of digits is within what [int] and [str] accept. *)
Definition within_limit (ds : pystr) : Prop :=
  Z.of_nat (length ds) <= Py.max_str_digits.

(** The whole of [ref] is in the language [[A-Z]+\d+]. *)
Definition matches_fully (ref : pystr) : Prop :=
  exists ls ds, ref = ls ++ ds /\ letters ls /\ digits ds.

(** Some prefix of [ref] is in the language [[A-Z]+\d+]. *)
Definition matches_prefix (ref : pystr) : Prop :=
  exists ls ds rest, ref = ls ++ ds ++ rest /\ letters ls /\ digits ds.

(** The whole of [ref] is in the language [[A-Z]+[0-9]+]. *)
Definition matches_fully_ascii (ref : pystr) : Prop :=
  exists ls ds, ref = ls ++ ds /\ letters ls /\ ascii_digits ds.

(** A decimal numeral in [[0-9]+] without superfluous leading zero. *)
Definition canonical_digits (ds : pystr) : Prop :=
  ascii_digits ds
  /\ (ds = u "0" \/ exists c rest, ds = c :: rest /\ c ≠ cp "0").

(** The digits the pattern takes from [ref]: group 2 of the match. *)
Definition row_digits_of (ref : pystr) : pystr :=
  match match_cell_ref ref with
  | Some (_, ds) => ds
  | None => []
  end.

(** The pattern takes more digits from [ref] than [int] accepts. *)
Definition oversized (ref : pystr) : Prop :=
  Py.max_str_digits < Z.of_nat (length (row_digits_of ref)).

(** [re.fullmatch] of the same pattern, as a test. *)
Definition fullmatch_cell_ref (ref : pystr) : bool :=
  let '(ls, rest) := span Py.is_upper ref in
  let '(ds, rest') := span Py.is_digit rest in
  negb (Py.is_empty ls) && negb (Py.is_empty ds) && Py.is_empty rest'.

(** A cell is retained when the grid has an entry at its address. *)
Definition retained (g : grid) (row col : Z) : Prop :=
  is_Some (cells g !! (row, col)).

(** [max_row] and [max_col] bound every retained address, [max_col] is
    the column of a retained cell and [max_row] the row of one unless it
    is 0; all are 0 for the empty grid. *)
Definition bounds_from_data (g : grid) : Prop :=
  (forall r c, retained g r c -> r <= max_row g /\ c <= max_col g)
  /\ 0 <= max_row g
  /\ ((cells g = ∅ /\ max_row g = 0 /\ max_col g = 0)
      \/ ((exists r, retained g r (max_col g))
          /\ (max_row g = 0 \/ exists c, retained g (max_row g) c))).

(** Every stored value is non-blank and sits at a decoded address. *)
Definition entries_ok (g : grid) : Prop :=
  forall r c v,
    cells g !! (r, c) = Some v -> -1 <= r /\ 0 <= c /\ Py.strip v ≠ [].

Definition grid_inv (g : grid) : Prop := bounds_from_data g /\ entries_ok g.

(** ** Sample documents *)

(** [<c r=ref t=type><v>value</v></c>] *)
Definition c_elem (ref : pystr) (type : option pystr) (value : option pystr)
  : Element :=
  Elem tag_c
       (match type with
        | Some t => <[u "t" := t]> {[u "r" := ref]}
        | None => {[u "r" := ref]}
        end)
       None [Elem tag_v ∅ value []].

(** [<dimension ref=.../>] *)
Definition dimension_elem (ref : pystr) : Element :=
  Elem (ns ++ u "dimension") {[u "ref" := ref]} None [].

(** [<worksheet><dimension/><sheetData><row>...</row>...</sheetData></worksheet>] *)
Definition worksheet_elem (dimension : pystr) (rows : list (list Element))
  : Element :=
  Elem (ns ++ u "worksheet") ∅ None
       [dimension_elem dimension;
        Elem (ns ++ u "sheetData") ∅ None
             (map (fun cs => Elem tag_row ∅ None cs) rows)].

(** A sheet declared to span A1:XFD1048576 with data in A1:B2 and a blank
    cell in the last declared corner. *)
Definition over_declared_sheet : part :=
  Xml (worksheet_elem (u "A1:XFD1048576")
         [[c_elem (u "A1") None (Some (u "Name"));
           c_elem (u "B1") None (Some (u "Age"))];
          [c_elem (u "A2") None (Some (u "Alice"));
           c_elem (u "B2") None (Some (u "30"))];
          [c_elem (u "XFD1048576") None (Some (u " "))]]).

(** The row of index [r] over the columns [0..max_col], missing entries
    read as the empty string. *)
Definition dense_row (cells : gmap (Z * Z) pystr) (max_col r : Z)
  : list pystr :=
  map (cell_at cells r) (Py.range (max_col + 1)).

(** Some cell of row [r] within the columns [0..max_col] is not blank. *)
Definition row_nonblank (cells : gmap (Z * Z) pystr) (max_col r : Z) : Prop :=
  exists c, 0 <= c <= max_col /\ Py.strip (cell_at cells r c) ≠ [].


(** A package without shared-string part: sheet 1 holds a shared-string
    cell with an empty value node, sheet 2 holds inline data. *)
Definition two_sheet_package : ZipFile :=
  {| members :=
       [(u "xl/worksheets/sheet1.xml",
         Xml (worksheet_elem (u "A1") [[c_elem (u "A1") (Some (u "s")) None]]));
        (u "xl/worksheets/sheet2.xml",
         Xml (worksheet_elem (u "A1")
                [[c_elem (u "A1") None (Some (u "Name"))]]))] |}.

(** A package without shared-string part and with inline data only. *)
Definition inline_package : ZipFile :=
  {| members :=
       [(u "xl/workbook.xml", Malformed);
        (u "xl/worksheets/sheet1.xml", over_declared_sheet)] |}.



(** ** Vocabulary of the further properties *)

(** The cells the decoder visits, in the order of the two nested loops. *)
Definition visited_cells (root : Element) : list Element :=
  flat_map (fun row => findall row tag_c) (findall root tag_row).

(** The address of the cell is one the pattern takes too many digits
    from. *)
Definition oversized_address (cell : Element) : Prop :=
  exists ref, get cell (u "r") = Some ref /\ oversized ref.

(** [oversized_address] as a test. *)
Definition oversized_addressb (cell : Element) : bool :=
  match get cell (u "r") with
  | Some ref =>
      Py.max_str_digits <? Z.of_nat (length (row_digits_of ref))
  | None => false
  end.

(** A shared-string cell with a decoded address whose value node has no
    text. *)
Definition textless_reference (cell : Element) : Prop :=
  get cell (u "t") = Some (u "s")
  /\ (exists value_elem,
        find cell tag_v = Some value_elem /\ text value_elem = None)
  /\ exists ref, get cell (u "r") = Some ref
                 /\ matches_prefix ref /\ ~ oversized ref.

(** The step of the decoder raises [e] at this cell. *)
Definition raises_at (cell : Element) (e : Py.exn) : Prop :=
  (e = Py.TypeError /\ textless_reference cell)
  \/ (e = Py.ValueError /\ oversized_address cell).



(** The cell has a decodable address [(row, col)] and resolves to the
    non-blank value [v]: it is one the decoder stores. *)
Definition contributes (shared_strings : list pystr) (cell : Element)
    (row col : Z) (v : pystr) : Prop :=
  exists ref,
    get cell (u "r") = Some ref
    /\ excel_cell_to_coords ref = Py.Return (Some row, Some col)
    /\ resolve_cell_value shared_strings cell = Py.Return v
    /\ Py.strip v ≠ [].

(** * Properties *)

(** ** Sample runs *)

Example column_index_to_letter_28 : column_index_to_letter 28 = u "AB".
Proof. reflexivity. Qed.

Example excel_cell_to_coords_AB12 :
  excel_cell_to_coords (u "AB12") = Py.Return (Some 11, Some 27).
Proof. reflexivity. Qed.

Example str_samples :
  Py.str 1203 = Py.Return (u "1203") /\ Py.str 0 = Py.Return (u "0")
  /\ Py.str (-45) = Py.Return (u "-45").
Proof. repeat split; reflexivity. Qed.

Example int_samples :
  Py.int (Some (u " -1_0 ")) = Py.Return (-10)
  /\ Py.int (Some (u "1__0")) = Py.Raise Py.ValueError
  /\ Py.int (Some [1633%N; 95%N; 50%N]) = Py.Return 12
  /\ Py.int (Some [28%N; 49%N]) = Py.Raise Py.ValueError
  /\ Py.int None = Py.Raise Py.TypeError.
Proof. repeat split; reflexivity. Qed.

Example int_digit_limit :
  Py.int (Some (repeat (cp "1") 4300 ++ u " ")) <> Py.Raise Py.ValueError
  /\ Py.int (Some (repeat (cp "1") 4301)) = Py.Raise Py.ValueError
  /\ Py.int (Some (cp "0" :: repeat (cp "1") 4300)) = Py.Raise Py.ValueError.
Proof. repeat split; vm_compute; congruence. Qed.

Example decode_unicode_digit :
  excel_cell_to_coords [cp "A"; 1633%N] = Py.Return (Some 0, Some 0)
  /\ excel_cell_to_coords (u "A1" ++ [1633%N]) = Py.Return (Some 10, Some 0).
Proof. split; reflexivity. Qed.

Example decode_digit_limit :
  excel_cell_to_coords (cp "A" :: repeat (cp "1") 4300)
  <> Py.Raise Py.ValueError
  /\ excel_cell_to_coords (cp "A" :: repeat (cp "1") 4301)
     = Py.Raise Py.ValueError
  /\ cell_step [] empty_grid
       (c_elem (cp "A" :: repeat (cp "1") 4301) None (Some (u " ")))
     = Py.Raise Py.ValueError
  /\ resolve_cell_value [u "a"]
       (c_elem (u "A1") (Some (u "s")) (Some (repeat (cp "1") 4301)))
     = Py.Return (repeat (cp "1") 4301).
Proof. repeat split; vm_compute; congruence. Qed.

Example strip_samples :
  Py.strip (u " x ") = u "x" /\ Py.strip [12288%N; 120%N; 28%N] = u "x".
Proof. split; reflexivity. Qed.

Example sorted_is_lexicographic :
  sorted [u "xl/worksheets/sheet2.xml"; u "xl/worksheets/sheet10.xml";
          u "xl/worksheets/sheet1.xml"]
  = [u "xl/worksheets/sheet1.xml"; u "xl/worksheets/sheet10.xml";
     u "xl/worksheets/sheet2.xml"].
Proof. reflexivity. Qed.

Example convert_inline_package :
  convert_xlsx_to_csv {[ u "d/book.xlsx" := Zip inline_package ]}
    (u "d/book.xlsx") None
  = ([MakeDirs (u "d"); Stdout MsgNoSharedStrings;
      Stdout (MsgFoundWorksheets 1);
      Stdout (MsgProcessing (u "xl/worksheets/sheet1.xml"));
      Stdout (MsgFoundData 4 2 2);
      WriteCsv (u "d/book_sheet1.csv")
               [[u "Name"; u "Age"]; [u "Alice"; u "30"]];
      Stdout (MsgSaved (u "d/book_sheet1.csv"))],
     Py.Return tt).
Proof. vm_compute. reflexivity. Qed.

Example main_batch :
  (main {[ u "a.xlsx" := Zip inline_package; u "c.xlsx" := Zip inline_package ]}
        [u "a.xlsx"; u "b.xlsx"; u "c.xlsx"] None).2
  = Tally 2 1.
Proof. vm_compute. reflexivity. Qed.

(** ** Characters and strings *)

Lemma ord_nonneg c : 0 <= Py.ord c.
Proof. unfold Py.ord. lia. Qed.

Lemma ord_chr z : 0 <= z -> Py.ord (Py.chr z) = z.
Proof. intros Hz. unfold Py.ord, Py.chr. lia. Qed.

Lemma chr_ord c : Py.chr (Py.ord c) = c.
Proof. unfold Py.ord, Py.chr. apply N2Z.id. Qed.

Lemma ord_inj c d : Py.ord c = Py.ord d -> c = d.
Proof.
  intros H. rewrite <- (chr_ord c), <- (chr_ord d). by rewrite H.
Qed.

Lemma is_upper_ord c : Py.is_upper c = true <-> 65 <= Py.ord c <= 90.
Proof.
  unfold Py.is_upper. change (Py.ord (cp "A")) with 65.
  change (Py.ord (cp "Z")) with 90.
  rewrite andb_true_iff, !Z.leb_le. tauto.
Qed.

Lemma is_ascii_digit_ord c :
  Py.is_ascii_digit c = true <-> 48 <= Py.ord c <= 57.
Proof.
  unfold Py.is_ascii_digit. change (Py.ord (cp "0")) with 48.
  change (Py.ord (cp "9")) with 57.
  rewrite andb_true_iff, !Z.leb_le. tauto.
Qed.

(** A decimal digit lies in one of the blocks, and its value is its
    offset there. *)
Lemma decimal_block c d :
  Py.decimal c = Some d ->
  exists b, In b Py.decimal_blocks /\ Py.ord c = b + d /\ 0 <= d < 10.
Proof.
  unfold Py.decimal.
  destruct (List.find _ _) as [b|] eqn:E; [|discriminate].
  intros [= <-]. apply find_some in E as [Hin Hb].
  apply andb_true_iff in Hb as [H1%Z.leb_le H2%Z.ltb_lt].
  exists b. split; [done|lia].
Qed.

Lemma is_digit_decimal c :
  Py.is_digit c = true <-> exists d, Py.decimal c = Some d.
Proof.
  unfold Py.is_digit. destruct (Py.decimal c) as [d|]; split.
  - by exists d.
  - done.
  - discriminate.
  - by intros [d ?].
Qed.

Lemma decimal_range c d : Py.decimal c = Some d -> 0 <= d <= 9.
Proof. intros (b & _ & _ & ?)%decimal_block. lia. Qed.

(** A test that holds at every code point of every block holds of every
    decimal digit. *)
Lemma digit_forall (P : N -> bool) :
  forallb (fun b => forallb (fun i => P (Py.chr (b + i))) (Py.range 10))
          Py.decimal_blocks = true ->
  forall c, Py.is_digit c = true -> P c = true.
Proof.
  intros HP c [d Hd]%is_digit_decimal.
  apply decimal_block in Hd as (b & Hin & Hc & Hd).
  rewrite forallb_forall in HP. specialize (HP b Hin).
  rewrite forallb_forall in HP. specialize (HP d).
  rewrite <- Hc, chr_ord in HP. apply HP.
  unfold Py.range. apply in_map_iff. exists (Z.to_nat d). split; [lia|].
  apply in_seq. simpl. lia.
Qed.

Lemma digit_not_upper c : Py.is_digit c = true -> Py.is_upper c = false.
Proof.
  intros H. apply negb_true_iff.
  by apply (digit_forall (fun c => negb (Py.is_upper c))).
Qed.

Lemma digit_not_int_space c :
  Py.is_digit c = true -> Py.is_int_space c = false.
Proof.
  intros H. apply negb_true_iff.
  by apply (digit_forall (fun c => negb (Py.is_int_space c))).
Qed.

Lemma digit_not_sign c :
  Py.is_digit c = true ->
  N.eqb c (cp "-") = false /\ N.eqb c (cp "+") = false.
Proof.
  intros H. split; apply negb_true_iff.
  - by apply (digit_forall (fun c => negb (N.eqb c (cp "-")))).
  - by apply (digit_forall (fun c => negb (N.eqb c (cp "+")))).
Qed.

Lemma decimal_ascii c :
  Py.is_ascii_digit c = true -> Py.decimal c = Some (Py.ord c - 48).
Proof.
  intros H%is_ascii_digit_ord. unfold Py.decimal, Py.decimal_blocks.
  cbn [List.find].
  destruct (Z.leb_spec 48 (Py.ord c)); [|lia].
  destruct (Z.ltb_spec (Py.ord c) (48 + 10)); [|lia]. done.
Qed.

Lemma ascii_digit_is_digit c :
  Py.is_ascii_digit c = true -> Py.is_digit c = true.
Proof.
  intros H. apply is_digit_decimal. eexists. by apply decimal_ascii.
Qed.

Lemma is_empty_true {A} (s : list A) : Py.is_empty s = true <-> s = [].
Proof. destruct s; simpl; split; congruence. Qed.

Lemma is_empty_false {A} (s : list A) : Py.is_empty s = false <-> s ≠ [].
Proof. destruct s; simpl; split; congruence. Qed.

Lemma ascii_digits_digits ds : ascii_digits ds -> digits ds.
Proof.
  intros [Hne Hall]. split; [done|].
  rewrite forallb_forall in *. intros c Hc.
  apply ascii_digit_is_digit. by apply Hall.
Qed.

(** ** Fuel of the two numeral loops *)

Lemma digits_fuel_enough n : n < 2 ^ Z.of_nat (Py.digits_fuel n).
Proof.
  unfold Py.digits_fuel.
  destruct (Z.le_gt_cases n 0) as [Hn|Hn].
  - pose proof (Z.pow_pos_nonneg 2 (Z.of_nat (S (Z.to_nat (Z.log2 n))))).
    lia.
  - pose proof (Z.log2_nonneg n).
    replace (Z.of_nat (S (Z.to_nat (Z.log2 n)))) with (Z.succ (Z.log2 n)) by lia.
    apply Z.log2_spec. lia.
Qed.

Lemma div_fuel n b f :
  2 <= b -> 0 <= n < 2 ^ Z.of_nat (S f) -> n / b < 2 ^ Z.of_nat f.
Proof.
  intros Hb [Hn Hlt].
  replace (Z.of_nat (S f)) with (Z.succ (Z.of_nat f)) in Hlt by lia.
  rewrite Z.pow_succ_r in Hlt by lia.
  pose proof (Z.pow_pos_nonneg 2 (Z.of_nat f)).
  apply Z.div_lt_upper_bound; nia.
Qed.

Lemma column_loop_fuel f1 : forall f2 n acc,
  n < 2 ^ Z.of_nat f1 -> n < 2 ^ Z.of_nat f2 ->
  column_index_to_letter_loop f1 n acc = column_index_to_letter_loop f2 n acc.
Proof.
  induction f1 as [|f1 IH]; intros [|f2] n acc H1 H2; simpl; try done.
  - destruct (Z.ltb_spec 0 n); [simpl in H1; lia | done].
  - destruct (Z.ltb_spec 0 n); [simpl in H2; lia | done].
  - destruct (Z.ltb_spec 0 n); [|done].
    apply IH; apply div_fuel; lia.
Qed.

Lemma to_letters_eq n acc :
  to_letters n acc =
  if 0 <? n
  then to_letters ((n - 1) / 26)
         (Py.chr ((n - 1) mod 26 + Py.ord (cp "A")) :: acc)
  else acc.
Proof.
  unfold to_letters at 1.
  pose proof (digits_fuel_enough n) as Hf.
  destruct (Py.digits_fuel n) as [|f] eqn:E; [discriminate|].
  simpl. destruct (Z.ltb_spec 0 n); [|done].
  apply column_loop_fuel; [apply div_fuel; lia | apply digits_fuel_enough].
Qed.

(** ** Column letters *)

Lemma col_letters_loop_acc s : forall a,
  col_letters_loop a s
  = a * 26 ^ Z.of_nat (length s) + col_letters_loop 0 s.
Proof.
  induction s as [|c s IH]; intros a.
  - simpl. lia.
  - cbn [col_letters_loop length].
    rewrite (IH (a * 26 + _)), (IH (0 * 26 + _)).
    replace (Z.of_nat (S (length s)))
      with (Z.succ (Z.of_nat (length s))) by lia.
    rewrite Z.pow_succ_r by lia. ring.
Qed.

Lemma letters_of_loop f : forall n acc,
  0 <= n < 2 ^ Z.of_nat f ->
  letters_to_number (column_index_to_letter_loop f n acc)
  = n * 26 ^ Z.of_nat (length acc) + letters_to_number acc.
Proof.
  unfold letters_to_number.
  induction f as [|f IH]; intros n acc Hn.
  - simpl in *. replace n with 0 by lia. lia.
  - cbn [column_index_to_letter_loop].
    destruct (Z.ltb_spec 0 n) as [Hpos|Hz]; [|replace n with 0 by lia; lia].
    rewrite IH.
    2:{ split; [apply Z.div_pos; lia | apply div_fuel; lia]. }
    pose proof (Z.mod_pos_bound (n - 1) 26 ltac:(lia)) as Hm.
    pose proof (Z.div_mod (n - 1) 26 ltac:(lia)) as Hdm.
    cbn [col_letters_loop length].
    rewrite col_letters_loop_acc.
    change (Py.ord (cp "A")) with 65.
    rewrite ord_chr by lia.
    replace (Z.of_nat (S (length acc)))
      with (Z.succ (Z.of_nat (length acc))) by lia.
    rewrite Z.pow_succ_r by lia.
    set (p := 26 ^ Z.of_nat (length acc)).
    replace (0 * 26 + ((n - 1) mod 26 + 65 - 65 + 1)) with ((n - 1) mod 26 + 1) by lia.
    replace n with (26 * ((n - 1) / 26) + (n - 1) mod 26 + 1) at 3 by lia.
    ring.
Qed.

Lemma letters_to_number_column n :
  0 <= n -> letters_to_number (column_index_to_letter n) = n.
Proof.
  intros Hn. unfold column_index_to_letter.
  rewrite letters_of_loop by (pose proof (digits_fuel_enough n); lia).
  unfold letters_to_number. simpl. lia.
Qed.

Lemma col_letters_loop_nonneg s : forall a,
  0 <= a -> forallb Py.is_upper s = true -> 0 <= col_letters_loop a s.
Proof.
  induction s as [|c s IH]; intros a Ha Hs; [done|].
  simpl in Hs. apply andb_true_iff in Hs as [Hc%is_upper_ord Hs].
  cbn [col_letters_loop]. apply IH; [|done].
  change (Py.ord (cp "A")) with 65. lia.
Qed.

Lemma col_letters_loop_pos c s a :
  0 <= a -> forallb Py.is_upper (c :: s) = true ->
  1 <= col_letters_loop a (c :: s).
Proof.
  intros Ha Hs. simpl in Hs. apply andb_true_iff in Hs as [Hc%is_upper_ord Hs].
  cbn [col_letters_loop]. rewrite col_letters_loop_acc.
  pose proof (col_letters_loop_nonneg s 0 ltac:(lia) Hs).
  pose proof (Z.pow_pos_nonneg 26 (Z.of_nat (length s))).
  change (Py.ord (cp "A")) with 65. nia.
Qed.

Lemma to_letters_col_loop s : forall a acc,
  0 <= a -> forallb Py.is_upper s = true ->
  to_letters (col_letters_loop a s) acc = to_letters a (s ++ acc).
Proof.
  induction s as [|c s IH]; intros a acc Ha Hs; [done|].
  simpl in Hs. apply andb_true_iff in Hs as [Hc%is_upper_ord Hs].
  cbn [col_letters_loop]. change (Py.ord (cp "A")) with 65.
  rewrite IH by (done || lia).
  rewrite (to_letters_eq (a * 26 + _)).
  destruct (Z.ltb_spec 0 (a * 26 + (Py.ord c - 65 + 1))); [|lia].
  change (Py.ord (cp "A")) with 65.
  replace (a * 26 + (Py.ord c - 65 + 1) - 1) with (Py.ord c - 65 + a * 26) by lia.
  rewrite Z.mod_add, Z.div_add by lia.
  rewrite Z.mod_small, Z.div_small by lia.
  replace (Py.ord c - 65 + 65) with (Py.ord c) by lia.
  by rewrite chr_ord.
Qed.

Lemma column_of_letters s :
  forallb Py.is_upper s = true ->
  column_index_to_letter (letters_to_number s) = s.
Proof.
  intros Hs. change (to_letters (col_letters_loop 0 s) [] = s).
  rewrite to_letters_col_loop by (done || lia).
  rewrite to_letters_eq. simpl. apply List.app_nil_r.
Qed.

(** ** Decimal numerals *)

Lemma str_loop_fuel f1 : forall f2 n acc,
  0 < n < 2 ^ Z.of_nat f1 -> n < 2 ^ Z.of_nat f2 ->
  Py.str_loop f1 n acc = Py.str_loop f2 n acc.
Proof.
  induction f1 as [|f1 IH]; intros [|f2] n acc H1 H2; simpl in *; try lia.
  destruct (Z.ltb_spec 0 (n / 10)); [|done].
  apply IH; [split; [done|] |]; apply div_fuel; lia.
Qed.

Lemma to_digits_eq n acc :
  to_digits n acc =
  let acc := Py.chr (n mod 10 + Py.ord (cp "0")) :: acc in
  if 0 <? n / 10 then to_digits (n / 10) acc else acc.
Proof.
  unfold to_digits at 1. cbv zeta.
  pose proof (digits_fuel_enough n) as Hf.
  destruct (Py.digits_fuel n) as [|f] eqn:E; [discriminate|].
  simpl. destruct (Z.ltb_spec 0 (n / 10)) as [Hq|Hq]; [|done].
  assert (0 < n).
  { destruct (Z.lt_ge_cases 0 n) as [|Hn]; [done|].
    pose proof (Z.div_le_upper_bound n 10 0 ltac:(lia) ltac:(lia)). lia. }
  apply str_loop_fuel;
    [split; [done | apply div_fuel; lia] | apply digits_fuel_enough].
Qed.

Lemma dec_value_nonneg ds : forall a,
  0 <= a -> forallb Py.is_digit ds = true -> a <= dec_value a ds.
Proof.
  induction ds as [|c ds IH]; intros a Ha Hs; [simpl; lia|].
  simpl in Hs. apply andb_true_iff in Hs as [[d Hc]%is_digit_decimal Hs].
  cbn [dec_value]. rewrite Hc. cbv zeta iota beta. apply decimal_range in Hc.
  etrans; [|apply IH; [lia|done]]. lia.
Qed.

Lemma int_digits_all ds : forall a seen,
  forallb Py.is_digit ds = true -> (ds ≠ [] \/ seen = true) ->
  Py.int_digits a seen ds = Some (dec_value a ds).
Proof.
  induction ds as [|c ds IH]; intros a seen Hs Hne.
  - destruct Hne as [? | ->]; done.
  - simpl in Hs. apply andb_true_iff in Hs as [[d Hc]%is_digit_decimal Hs].
    cbn [Py.int_digits dec_value]. rewrite Hc. cbv zeta iota beta. apply IH; auto.
Qed.

Lemma lstrip_by_stop space c s :
  space c = false -> Py.lstrip_by space (c :: s) = c :: s.
Proof. intros H. simpl. by rewrite H. Qed.

Lemma rstrip_by_none space s :
  forallb (fun c => negb (space c)) s = true -> Py.rstrip_by space s = s.
Proof.
  induction s as [|c s IH]; intros Hs; [done|].
  simpl in Hs. apply andb_true_iff in Hs as [Hc%negb_true_iff Hs].
  cbn [Py.rstrip_by]. rewrite IH by done. by rewrite Hc.
Qed.

Lemma forallb_impl {A} (p q : A -> bool) l :
  (forall a, p a = true -> q a = true) ->
  forallb p l = true -> forallb q l = true.
Proof.
  intros Hpq. rewrite !forallb_forall. auto.
Qed.

Lemma filter_all {A} (p : A -> bool) l :
  forallb p l = true -> List.filter p l = l.
Proof.
  induction l as [|a l IH]; [done|]. simpl.
  intros [Ha Hl]%andb_true_iff. by rewrite Ha, IH.
Qed.

Lemma digit_not_space c : Py.is_digit c = true -> Py.is_space c = false.
Proof.
  intros H. apply negb_true_iff.
  by apply (digit_forall (fun c => negb (Py.is_space c))).
Qed.

Lemma strip_digits ds :
  forallb Py.is_digit ds = true -> Py.strip ds = ds.
Proof.
  intros Hs. unfold Py.strip.
  destruct ds as [|c ds]; [done|].
  pose proof Hs as Hs'. simpl in Hs'. apply andb_true_iff in Hs' as [Hc _].
  rewrite lstrip_by_stop by (by apply digit_not_space).
  apply rstrip_by_none. revert Hs. apply forallb_impl.
  intros a Ha. apply negb_true_iff. by apply digit_not_space.
Qed.

(** [int] on a run of decimal digits: its value, unless the run is longer
    than the limit. *)
Lemma int_digits_string ds :
  digits ds ->
  Py.int (Some ds)
  = if Py.max_str_digits <? Z.of_nat (length ds)
    then Py.Raise Py.ValueError
    else Py.Return (dec_value 0 ds).
Proof.
  intros [Hne Hs]. unfold Py.int, Py.int_of_str.
  destruct ds as [|c ds]; [done|].
  pose proof Hs as Hs'. simpl in Hs'. apply andb_true_iff in Hs' as [Hc _].
  rewrite lstrip_by_stop by (by apply digit_not_int_space).
  rewrite rstrip_by_none.
  2:{ revert Hs. apply forallb_impl. intros a Ha.
      apply negb_true_iff. by apply digit_not_int_space. }
  destruct (digit_not_sign c Hc) as [-> ->].
  rewrite int_digits_all by auto.
  by rewrite filter_all.
Qed.

Lemma int_digits_within ds :
  digits ds -> within_limit ds ->
  Py.int (Some ds) = Py.Return (dec_value 0 ds).
Proof.
  intros Hd Hw. rewrite int_digits_string by done.
  unfold within_limit in Hw. by destruct (Z.ltb_spec Py.max_str_digits
                                              (Z.of_nat (length ds))); [lia|].
Qed.

Lemma dec_value_ascii ds : forall a,
  forallb Py.is_ascii_digit ds = true ->
  dec_value a ds
  = fold_left (fun acc c => acc * 10 + (Py.ord c - 48)) ds a.
Proof.
  induction ds as [|c ds IH]; intros a Hs; [done|].
  simpl in Hs. apply andb_true_iff in Hs as [Hc Hs].
  cbn [dec_value fold_left]. rewrite (decimal_ascii c Hc). cbv zeta iota beta.
  by apply IH.
Qed.

Lemma to_digits_dec_value ds : forall a acc,
  0 < a -> forallb Py.is_ascii_digit ds = true ->
  to_digits (dec_value a ds) acc = to_digits a (ds ++ acc).
Proof.
  induction ds as [|c ds IH]; intros a acc Ha Hs; [done|].
  simpl in Hs. apply andb_true_iff in Hs as [Hc Hs].
  cbn [dec_value]. rewrite (decimal_ascii c Hc). cbv zeta iota beta.
  apply is_ascii_digit_ord in Hc.
  rewrite IH by (done || lia).
  rewrite (to_digits_eq (a * 10 + _)). cbv zeta.
  change (Py.ord (cp "0")) with 48.
  replace (a * 10 + (Py.ord c - 48)) with (Py.ord c - 48 + a * 10) by lia.
  rewrite Z.mod_add, Z.div_add by lia.
  rewrite Z.mod_small, Z.div_small by lia.
  replace (Py.ord c - 48 + 48) with (Py.ord c) by lia.
  rewrite chr_ord.
  destruct (Z.ltb_spec 0 (0 + a)); [|lia].
  by rewrite Z.add_0_l.
Qed.

(** The digits [str] produces for the value of a canonical numeral are the
    numeral. *)
Lemma to_digits_canonical ds :
  canonical_digits ds ->
  0 <= dec_value 0 ds /\ to_digits (dec_value 0 ds) [] = ds.
Proof.
  intros [[Hne Hs] [ -> | (c & rest & -> & Hc)]]; [done|].
  simpl in Hs. apply andb_true_iff in Hs as [Hd Hrest].
  pose proof Hd as Hd'%is_ascii_digit_ord.
  assert (Py.ord c ≠ 48) as Hc0.
  { intros E. apply Hc. apply ord_inj. by rewrite E. }
  cbn [dec_value]. rewrite (decimal_ascii c Hd). cbv zeta iota beta.
  replace (0 * 10 + (Py.ord c - 48)) with (Py.ord c - 48) by lia.
  pose proof (dec_value_nonneg rest (Py.ord c - 48) ltac:(lia)
                (forallb_impl _ _ _ ascii_digit_is_digit Hrest)).
  split; [lia|].
  rewrite to_digits_dec_value by (done || lia).
  rewrite to_digits_eq. cbv zeta. change (Py.ord (cp "0")) with 48.
  rewrite Z.div_small, Z.mod_small by lia. simpl.
  replace (Py.ord c - 48 + 48) with (Py.ord c) by lia.
  by rewrite (chr_ord c), List.app_nil_r.
Qed.

Lemma str_dec_value ds :
  canonical_digits ds -> within_limit ds ->
  Py.str (dec_value 0 ds) = Py.Return ds.
Proof.
  intros Hc Hw. destruct (to_digits_canonical ds Hc) as [Hn Hds].
  unfold Py.str. rewrite Z.abs_eq by done.
  change (Py.str_loop _ _ _) with (to_digits (dec_value 0 ds) []).
  rewrite Hds. unfold within_limit in Hw.
  destruct (Z.ltb_spec Py.max_str_digits (Z.of_nat (length ds))); [lia|].
  by destruct (Z.ltb_spec (dec_value 0 ds) 0); [lia|].
Qed.

(** ** The anchored pattern *)

Lemma span_spec p s : forall a b,
  span p s = (a, b) -> s = a ++ b /\ forallb p a = true.
Proof.
  induction s as [|c s IH]; intros a b; simpl.
  - by intros [= <- <-].
  - destruct (p c) eqn:Hc.
    + destruct (span p s) as [a' b'] eqn:E. intros [= <- <-].
      destruct (IH a' b' eq_refl) as [-> Ha]. simpl. by rewrite Hc, Ha.
    + by intros [= <- <-].
Qed.

Lemma span_app p a : forall b,
  forallb p a = true ->
  span p (a ++ b) = (a ++ (span p b).1, (span p b).2).
Proof.
  induction a as [|c a IH]; intros b Ha.
  - simpl. by destruct (span p b).
  - simpl in Ha. apply andb_true_iff in Ha as [Hc Ha].
    simpl. rewrite Hc, (IH b Ha). done.
Qed.

Lemma span_stop p c s : p c = false -> span p (c :: s) = ([], c :: s).
Proof. intros H. simpl. by rewrite H. Qed.

Lemma app_not_empty {A} (a b : list A) : a ≠ [] -> a ++ b ≠ [].
Proof. by destruct a. Qed.

Lemma match_cell_ref_Some ref ls ds :
  match_cell_ref ref = Some (ls, ds) ->
  letters ls /\ digits ds /\ exists rest, ref = ls ++ ds ++ rest.
Proof.
  unfold match_cell_ref.
  destruct (span Py.is_upper ref) as [l r] eqn:El.
  destruct (span Py.is_digit r) as [d r'] eqn:Ed.
  destruct (Py.is_empty l) eqn:Hl; [done|].
  destruct (Py.is_empty d) eqn:Hd; [done|]. simpl.
  intros [= <- <-].
  apply span_spec in El as [-> Hup]. apply span_spec in Ed as [-> Hdg].
  repeat split; try done; try by apply is_empty_false.
  by exists r'.
Qed.

Lemma match_cell_ref_prefix ls ds rest :
  letters ls -> digits ds ->
  exists ds', match_cell_ref (ls ++ ds ++ rest) = Some (ls, ds ++ ds')
              /\ forallb Py.is_digit ds' = true
              /\ (rest = [] -> ds' = [])
              /\ (forall c rest', rest = c :: rest' ->
                    Py.is_digit c = false -> ds' = []).
Proof.
  intros [Hl Hup] [Hd Hdg]. unfold match_cell_ref.
  rewrite span_app by done.
  destruct ds as [|c ds]; [done|].
  pose proof Hdg as Hdg'. simpl in Hdg'. apply andb_true_iff in Hdg' as [Hc _].
  rewrite <- List.app_comm_cons, (span_stop _ c) by (by apply digit_not_upper).
  cbn [fst snd]. rewrite List.app_nil_r, List.app_comm_cons, span_app by done.
  destruct (span Py.is_digit rest) as [d' r'] eqn:E. cbn [fst snd].
  exists d'.
  replace (Py.is_empty ls) with false by (symmetry; by apply is_empty_false).
  simpl. split; [done|]. split; [by apply span_spec in E as [_ ?]|].
  split.
  - intros ->. simpl in E. by injection E as <- <-.
  - intros c' rest' -> Hc'. rewrite span_stop in E by done.
    by injection E as <- <-.
Qed.

Lemma match_cell_ref_None ref :
  match_cell_ref ref = None <-> ~ matches_prefix ref.
Proof.
  split.
  - intros H (ls & ds & rest & -> & Hl & Hd).
    destruct (match_cell_ref_prefix ls ds rest Hl Hd) as (? & E & _).
    congruence.
  - intros H. destruct (match_cell_ref ref) as [[ls ds]|] eqn:E; [|done].
    exfalso. apply H.
    apply match_cell_ref_Some in E as (Hl & Hd & rest & ->).
    by exists ls, ds, rest.
Qed.

Lemma match_cell_ref_fully ls ds :
  letters ls -> digits ds -> match_cell_ref (ls ++ ds) = Some (ls, ds).
Proof.
  intros Hl Hd.
  destruct (match_cell_ref_prefix ls ds [] Hl Hd) as (ds' & E & _ & Hnil & _).
  rewrite List.app_nil_r in E. by rewrite E, Hnil, List.app_nil_r.
Qed.

Lemma matches_fully_prefix ref : matches_fully ref -> matches_prefix ref.
Proof.
  intros (ls & ds & -> & Hl & Hd). exists ls, ds, [].
  by rewrite List.app_nil_r.
Qed.

Lemma matches_fully_ascii_fully ref :
  matches_fully_ascii ref -> matches_fully ref.
Proof.
  intros (ls & ds & -> & Hl & Hd). exists ls, ds.
  eauto using ascii_digits_digits.
Qed.

(** The three outcomes of the address decoder, by what the pattern takes
    from the reference. *)
Lemma excel_cell_to_coords_Some ref ls ds :
  match_cell_ref ref = Some (ls, ds) ->
  excel_cell_to_coords ref
  = if Py.max_str_digits <? Z.of_nat (length ds)
    then Py.Raise Py.ValueError
    else Py.Return (Some (dec_value 0 ds - 1),
                    Some (letters_to_number ls - 1)).
Proof.
  intros E. unfold excel_cell_to_coords. rewrite E.
  apply match_cell_ref_Some in E as (_ & Hd & _).
  rewrite (int_digits_string ds Hd).
  by destruct (Py.max_str_digits <? Z.of_nat (length ds)).
Qed.

Lemma excel_cell_to_coords_None ref :
  match_cell_ref ref = None ->
  excel_cell_to_coords ref = Py.Return (None, None).
Proof. intros E. unfold excel_cell_to_coords. by rewrite E. Qed.

Lemma excel_cell_to_coords_within ref ls ds :
  match_cell_ref ref = Some (ls, ds) -> within_limit ds ->
  excel_cell_to_coords ref
  = Py.Return (Some (dec_value 0 ds - 1), Some (letters_to_number ls - 1)).
Proof.
  intros E Hw. rewrite (excel_cell_to_coords_Some _ _ _ E).
  unfold within_limit in Hw.
  by destruct (Z.ltb_spec Py.max_str_digits (Z.of_nat (length ds))); [lia|].
Qed.

Lemma oversized_spec ref :
  oversized ref
  <-> exists ls ds, match_cell_ref ref = Some (ls, ds) /\ ~ within_limit ds.
Proof.
  unfold oversized, row_digits_of, within_limit. split.
  - destruct (match_cell_ref ref) as [[ls ds]|]; [|simpl; unfold Py.max_str_digits; lia].
    intros H. exists ls, ds. split; [done|lia].
  - intros (ls & ds & -> & H). lia.
Qed.

Lemma excel_cell_to_coords_raises ref e :
  excel_cell_to_coords ref = Py.Raise e <-> e = Py.ValueError /\ oversized ref.
Proof.
  unfold oversized, row_digits_of.
  destruct (match_cell_ref ref) as [[ls ds]|] eqn:E.
  - rewrite (excel_cell_to_coords_Some _ _ _ E).
    destruct (Z.ltb_spec Py.max_str_digits (Z.of_nat (length ds))).
    + split; [intros [= <-]; done | by intros [-> _]].
    + split; [done | intros [_ ?]; lia].
  - rewrite (excel_cell_to_coords_None _ E). simpl.
    split; [done | intros [_ ?]; unfold Py.max_str_digits in *; lia].
Qed.

Lemma excel_cell_to_coords_returns ref :
  ~ oversized ref ->
  excel_cell_to_coords ref = Py.Return (None, None)
  \/ exists row col,
       excel_cell_to_coords ref = Py.Return (Some row, Some col)
       /\ -1 <= row /\ 0 <= col.
Proof.
  intros Hno.
  destruct (match_cell_ref ref) as [[ls ds]|] eqn:E.
  - right. exists (dec_value 0 ds - 1), (letters_to_number ls - 1).
    split.
    + apply excel_cell_to_coords_within; [done|].
      unfold within_limit. unfold oversized, row_digits_of in Hno.
      rewrite E in Hno. lia.
    + apply match_cell_ref_Some in E as ([Hne Hup] & [_ Hd] & _).
      pose proof (dec_value_nonneg ds 0 ltac:(lia) Hd).
      destruct ls as [|c ls]; [done|].
      pose proof (col_letters_loop_pos c ls 0 ltac:(lia) Hup).
      unfold letters_to_number. lia.
  - left. by apply excel_cell_to_coords_None.
Qed.

Lemma fullmatch_cell_ref_spec ref :
  fullmatch_cell_ref ref = true <-> matches_fully ref.
Proof.
  unfold fullmatch_cell_ref. split.
  - destruct (span Py.is_upper ref) as [ls r] eqn:El.
    destruct (span Py.is_digit r) as [ds r'] eqn:Ed.
    rewrite !andb_true_iff, !negb_true_iff, !is_empty_false, is_empty_true.
    intros [[Hl Hd] ->].
    apply span_spec in El as [-> Hup]. apply span_spec in Ed as [-> Hdg].
    exists ls, ds. by rewrite List.app_nil_r.
  - intros (ls & ds & -> & [Hl Hup] & [Hd Hdg]).
    rewrite span_app by done.
    destruct ds as [|c ds]; [done|].
    pose proof Hdg as Hdg'. simpl in Hdg'. apply andb_true_iff in Hdg' as [Hc _].
    rewrite (span_stop _ c) by (by apply digit_not_upper).
    cbn [fst snd]. rewrite List.app_nil_r.
    rewrite <- (List.app_nil_r (c :: ds)), span_app by done.
    cbn [span fst snd]. rewrite List.app_nil_r.
    by destruct ls.
Qed.

(** ** The address codec: claims C8, C5 and C6 *)

(** C8.  For every integer [n] in [1, 1000], the letters produced by
    [column_index_to_letter] read back to [n] through the accumulation of
    [excel_cell_to_coords], [col = col * 26 + (letter - 'A' + 1)]; the
    letters map A to 1 and Z to 26. *)
Theorem column_bijection (n : Z) :
  1 <= n <= 1000 ->
  letters_to_number (column_index_to_letter n) = n
  /\ (forall s c,
        letters_to_number (s ++ [c])
        = letters_to_number s * 26 + (Py.ord c - Py.ord (cp "A") + 1))
  /\ letters_to_number (u "A") = 1 /\ letters_to_number (u "Z") = 26.
Proof.
  intros Hn. split; [apply letters_to_number_column; lia|].
  split; [|done].
  intros s c. unfold letters_to_number. generalize 0.
  induction s as [|x s IH]; intros a; [done|].
  simpl. apply IH.
Qed.

Lemma column_bijection_witness :
  1 <= 703 <= 1000
  /\ letters_to_number (column_index_to_letter 703) = 703.
Proof.
  split; [lia|]. apply (column_bijection 703). lia.
Defined.

(** C5, as the code has it.  For every reference made of letters A-Z
    followed by a row number in digits 0-9 written without superfluous
    leading zero: when the row number has at most 4300 digits, decoding
    succeeds and encoding the decoded coordinates gives the reference
    back; when it has more, decoding raises [ValueError]. *)
Theorem encode_decode_roundtrip (ls ds : pystr) :
  letters ls -> canonical_digits ds ->
  (within_limit ds ->
   exists row col,
     excel_cell_to_coords (ls ++ ds) = Py.Return (Some row, Some col)
     /\ encode row col = Py.Return (ls ++ ds))
  /\ (~ within_limit ds ->
      excel_cell_to_coords (ls ++ ds) = Py.Raise Py.ValueError).
Proof.
  intros Hl [Hd Hcan].
  pose proof (match_cell_ref_fully ls ds Hl (ascii_digits_digits _ Hd)) as E.
  split.
  - intros Hw.
    exists (dec_value 0 ds - 1), (letters_to_number ls - 1). split.
    + by apply excel_cell_to_coords_within.
    + unfold encode.
      replace (letters_to_number ls - 1 + 1) with (letters_to_number ls) by lia.
      replace (dec_value 0 ds - 1 + 1) with (dec_value 0 ds) by lia.
      rewrite column_of_letters by apply Hl.
      by rewrite str_dec_value.
  - intros Hw. apply excel_cell_to_coords_raises. split; [done|].
    apply oversized_spec. by exists ls, ds.
Qed.

Lemma encode_decode_roundtrip_witness :
  exists row col,
    excel_cell_to_coords (u "AB120") = Py.Return (Some row, Some col)
    /\ encode row col = Py.Return (u "AB120").
Proof.
  apply (encode_decode_roundtrip (u "AB") (u "120")).
  - split; [done | reflexivity].
  - split; [split; [done | reflexivity] |].
    right. exists (cp "1"), (u "20"). split; [reflexivity | discriminate].
  - unfold within_limit. vm_compute. discriminate.
Defined.

(** C5 as stated fails: "A01" matches the pattern in full, decodes to
    (0, 0), and (0, 0) encodes to "A1". *)
Lemma roundtrip_fails_on_leading_zero :
  matches_fully_ascii (u "A01")
  /\ excel_cell_to_coords (u "A01") = Py.Return (Some 0, Some 0)
  /\ encode 0 0 = Py.Return (u "A1")
  /\ encode 0 0 ≠ Py.Return (u "A01").
Proof.
  split.
  - exists (u "A"), (u "01"). repeat split; done.
  - repeat split; done.
Qed.

(** C6, as the code has it.  Decoding returns no coordinates exactly when
    no prefix of the reference is letters A-Z followed by decimal digits
    (the pattern is anchored at the start only, and its class [\d] holds
    the decimal digits of every script, 0-9 among them); the cell is then
    skipped by the decoder, which goes on.  Decoding raises [ValueError]
    exactly when the pattern takes more than 4300 digits.  "1A", "A", "12"
    and the empty reference return no coordinates, and every reference
    that is letters followed by at most 4300 digits, in 0-9 or not, is
    decoded. *)
Theorem decode_fails_iff_no_prefix_match (ref : pystr) :
  (excel_cell_to_coords ref = Py.Return (None, None) <-> ~ matches_prefix ref)
  /\ (excel_cell_to_coords ref = Py.Raise Py.ValueError <-> oversized ref)
  /\ (forall ls ds,
        ref = ls ++ ds -> letters ls -> digits ds \/ ascii_digits ds ->
        within_limit ds ->
        exists row col,
          excel_cell_to_coords ref = Py.Return (Some row, Some col))
  /\ (forall shared_strings g cell,
        get cell (u "r") = Some ref -> ~ matches_prefix ref ->
        cell_step shared_strings g cell = Py.Return g)
  /\ Forall (fun r => excel_cell_to_coords r = Py.Return (None, None))
            [u "1A"; u "A"; u "12"; []].
Proof.
  assert (excel_cell_to_coords ref = Py.Return (None, None)
          <-> ~ matches_prefix ref) as Hiff.
  { rewrite <- match_cell_ref_None. split.
    - intros H. destruct (match_cell_ref ref) as [[ls ds]|] eqn:E; [|done].
      rewrite (excel_cell_to_coords_Some _ _ _ E) in H.
      by destruct (Py.max_str_digits <? Z.of_nat (length ds)).
    - apply excel_cell_to_coords_None. }
  split; [done|]. split; [|split; [|split]].
  - rewrite excel_cell_to_coords_raises. tauto.
  - intros ls ds -> Hl Hd Hw.
    assert (digits ds) as Hd' by (destruct Hd; auto using ascii_digits_digits).
    rewrite (excel_cell_to_coords_within _ ls ds); eauto.
    by apply match_cell_ref_fully.
  - intros shared_strings g cell Hr Hno. unfold cell_step. rewrite Hr.
    destruct (Py.is_empty ref); [done|].
    apply Hiff in Hno. by rewrite Hno.
  - repeat constructor.
Qed.

Lemma decode_fails_iff_no_prefix_match_witness :
  excel_cell_to_coords (u "1A") = Py.Return (None, None)
  /\ exists row col,
       excel_cell_to_coords (u "C7") = Py.Return (Some row, Some col).
Proof.
  split.
  - apply (decode_fails_iff_no_prefix_match (u "1A")).
    apply match_cell_ref_None. reflexivity.
  - destruct (decode_fails_iff_no_prefix_match (u "C7")) as (_ & _ & H & _).
    apply (H (u "C") (u "7")).
    + reflexivity.
    + split; [done | reflexivity].
    + right. split; [done | reflexivity].
    + unfold within_limit. vm_compute. discriminate.
Defined.

(** C6 as stated fails: "A1B" is not letters followed by digits, yet it is
    decoded, to the coordinates of "A1". *)
Lemma decode_accepts_trailing_text :
  ~ matches_fully (u "A1B") /\ ~ matches_fully_ascii (u "A1B")
  /\ excel_cell_to_coords (u "A1B") = Py.Return (Some 0, Some 0).
Proof.
  assert (~ matches_fully (u "A1B")) as H.
  { intros H%fullmatch_cell_ref_spec. discriminate. }
  split; [done|]. split; [|done].
  intros H'. by apply H, matches_fully_ascii_fully.
Qed.

(** ** The worksheet decoder *)

Lemma int_raises_ValueError s e : Py.int (Some s) = Py.Raise e -> e = Py.ValueError.
Proof.
  unfold Py.int, Py.int_of_str.
  repeat case_match; congruence.
Qed.

Lemma excel_cell_to_coords_bounds ref row col :
  excel_cell_to_coords ref = Py.Return (Some row, Some col) ->
  -1 <= row /\ 0 <= col.
Proof.
  intros E.
  assert (~ oversized ref) as Hno.
  { intros H. assert (excel_cell_to_coords ref = Py.Raise Py.ValueError) as E'
      by (by apply excel_cell_to_coords_raises). congruence. }
  destruct (excel_cell_to_coords_returns ref Hno) as [E'|(r & c & E' & ?)];
    rewrite E' in E; [done|].
  by injection E as <- <-.
Qed.

Lemma oversized_not_empty ref : oversized ref -> Py.is_empty ref = false.
Proof.
  intros (ls & ds & E & _)%oversized_spec. by destruct ref.
Qed.

Lemma oversized_addressb_spec cell :
  oversized_addressb cell = true <-> oversized_address cell.
Proof.
  unfold oversized_addressb, oversized_address, oversized.
  destruct (get cell (u "r")) as [ref|]; split.
  - intros H%Z.ltb_lt. by exists ref.
  - intros (? & [= <-] & H). by apply Z.ltb_lt.
  - done.
  - by intros (? & ? & _).
Qed.

Lemma truthy_strip v : Py.truthy (Py.strip v) = true <-> Py.strip v ≠ [].
Proof.
  unfold Py.truthy. rewrite negb_true_iff. apply is_empty_false.
Qed.

Lemma store_cell_blank g row col v :
  Py.strip v = [] -> store_cell g row col v = g.
Proof. intros H. unfold store_cell. by rewrite H. Qed.

Lemma store_cell_nonblank g row col v :
  Py.strip v ≠ [] ->
  store_cell g row col v
  = Grid (<[(row, col) := v]> (cells g))
         (Z.max (max_row g) row) (Z.max (max_col g) col).
Proof.
  intros H%truthy_strip. unfold store_cell. by rewrite H.
Qed.

Section Decoder.

Context (shared_strings : list pystr).

(** What one iteration does, case by case. *)
Lemma cell_step_cases g cell g' :
  cell_step shared_strings g cell = Py.Return g' ->
  g' = g
  \/ exists ref row col v,
       get cell (u "r") = Some ref
       /\ excel_cell_to_coords ref = Py.Return (Some row, Some col)
       /\ resolve_cell_value shared_strings cell = Py.Return v
       /\ g' = store_cell g row col v.
Proof.
  unfold cell_step.
  destruct (get cell (u "r")) as [ref|] eqn:Hr; [|intros [= <-]; by left].
  destruct (Py.is_empty ref); [intros [= <-]; by left|].
  destruct (excel_cell_to_coords ref) as [[[row|] [col|]]|e] eqn:Hc;
    simpl; try (intros [= <-]; by left); try done.
  destruct (resolve_cell_value shared_strings cell) as [v|e] eqn:Hv;
    simpl; [|done].
  intros [= <-]. right. by exists ref, row, col, v.
Qed.

(** An address from which the pattern takes more than 4300 digits ends
    the decode. *)
Lemma cell_step_oversized g cell :
  oversized_address cell ->
  cell_step shared_strings g cell = Py.Raise Py.ValueError.
Proof.
  intros (ref & Hr & Hov). unfold cell_step. rewrite Hr.
  rewrite (oversized_not_empty _ Hov).
  assert (excel_cell_to_coords ref = Py.Raise Py.ValueError) as ->
    by (by apply excel_cell_to_coords_raises).
  done.
Qed.

Lemma cell_step_blank g cell v :
  resolve_cell_value shared_strings cell = Py.Return v ->
  Py.strip v = [] ->
  ~ oversized_address cell ->
  cell_step shared_strings g cell = Py.Return g.
Proof.
  intros Hv Hblank Hno. unfold cell_step.
  destruct (get cell (u "r")) as [ref|] eqn:Hr; [|done].
  destruct (Py.is_empty ref); [done|].
  destruct (excel_cell_to_coords_returns ref) as [->|(row & col & -> & _)];
    [intros ?; apply Hno; by exists ref | done |].
  simpl. rewrite Hv. simpl. by rewrite store_cell_blank.
Qed.

(** A blank value is never stored: a step that returns leaves the grid
    as it was. *)
Lemma cell_step_blank_returns g cell v g' :
  resolve_cell_value shared_strings cell = Py.Return v ->
  Py.strip v = [] ->
  cell_step shared_strings g cell = Py.Return g' -> g' = g.
Proof.
  intros Hv Hblank
    [->|(ref & row & col & v' & _ & _ & Hv' & ->)]%cell_step_cases; [done|].
  rewrite Hv in Hv'. injection Hv' as <-. by apply store_cell_blank.
Qed.

Lemma store_cell_inv g row col v :
  -1 <= row -> 0 <= col -> grid_inv g -> grid_inv (store_cell g row col v).
Proof.
  intros Hrow Hcol [(Hub & Hnn & Hatt) Hent].
  destruct (decide (Py.strip v = [])) as [Hb|Hb];
    [by rewrite store_cell_blank|].
  rewrite store_cell_nonblank by done.
  unfold grid_inv, bounds_from_data, entries_ok, retained in *. simpl.
  split; [split; [|split] |].
  - intros r c. rewrite lookup_insert_is_Some.
    intros [[= <- <-]|[_ H]]; [lia|]. apply Hub in H. lia.
  - lia.
  - right. split.
    + destruct (Z.le_gt_cases (max_col g) col) as [Hle|Hgt].
      * rewrite Z.max_r by done.
        exists row. rewrite lookup_insert_is_Some. by left.
      * rewrite Z.max_l by lia.
        destruct Hatt as [(He & _ & Hz)|[(r & Hr) _]]; [lia|].
        exists r. rewrite lookup_insert_is_Some'. by right.
    + destruct (Z.le_gt_cases (max_row g) row) as [Hle|Hgt].
      * rewrite Z.max_r by done.
        right. exists col. rewrite lookup_insert_is_Some. by left.
      * rewrite Z.max_l by lia.
        destruct Hatt as [(_ & Hz & _)|[_ [Hz|(c & Hc)]]]; [by left..|].
        right. exists c. rewrite lookup_insert_is_Some'. by right.
  - intros r c v'. rewrite lookup_insert_Some.
    intros [[[= <- <-] <-]|[_ H]]; [done|]. by apply Hent in H.
Qed.

Lemma cell_step_inv g cell g' :
  cell_step shared_strings g cell = Py.Return g' -> grid_inv g -> grid_inv g'.
Proof.
  intros [->|(ref & row & col & v & _ & Hc & _ & ->)]%cell_step_cases Hg;
    [done|].
  destruct (excel_cell_to_coords_bounds _ _ _ Hc).
  by apply store_cell_inv.
Qed.

Lemma cell_step_mono g cell g' :
  cell_step shared_strings g cell = Py.Return g' ->
  max_row g <= max_row g' /\ max_col g <= max_col g'
  /\ dom (cells g) ⊆ dom (cells g').
Proof.
  intros [->|(ref & row & col & v & _ & _ & _ & ->)]%cell_step_cases;
    [done|].
  unfold store_cell. destruct (Py.truthy (Py.strip v)); [|done].
  simpl. rewrite dom_insert_L. split; [lia|]. split; [lia|]. set_solver.
Qed.

Lemma for_each_inv {A S} (P : S -> Prop) (body : S -> A -> Py.outcome S) l :
  (forall s a s', P s -> body s a = Py.Return s' -> P s') ->
  forall s s', P s -> for_each body l s = Py.Return s' -> P s'.
Proof.
  intros Hstep. induction l as [|a l IH]; intros s s' Hs; simpl.
  - by intros [= <-].
  - destruct (body s a) as [s1|e] eqn:E; [|done]. simpl.
    apply IH. by eapply Hstep.
Qed.

Lemma empty_grid_inv : grid_inv empty_grid.
Proof.
  split.
  - split; [|split; [done|by left]].
    intros r c [v Hv]. simpl in Hv. by rewrite lookup_empty in Hv.
  - intros r c v Hv. simpl in Hv. by rewrite lookup_empty in Hv.
Qed.

Lemma parse_worksheet_xml_inv xml_content g :
  parse_worksheet_xml xml_content shared_strings = Py.Return g -> grid_inv g.
Proof.
  unfold parse_worksheet_xml.
  destruct (fromstring xml_content) as [root|e]; [|done]. simpl.
  apply for_each_inv; [|apply empty_grid_inv].
  intros g0 row g1 Hg0. apply for_each_inv; [|done].
  intros ? ? ? ? ?. by eapply cell_step_inv.
Qed.

End Decoder.

Lemma findall_skip t a x pre d post name :
  (forall e, e ∈ iter d -> tag e ≠ name) ->
  findall (Elem t a x (pre ++ d :: post)) name
  = findall (Elem t a x (pre ++ post)) name.
Proof.
  intros Hd. unfold findall. simpl.
  rewrite !flat_map_app. simpl. rewrite !filter_app.
  replace (filter (fun e => tag e = name) (iter d)) with (@nil Element); [done|].
  symmetry. induction (iter d) as [|e l IH]; [done|].
  rewrite filter_cons_False by (apply Hd; left).
  apply IH. intros e' He'. apply Hd. by right.
Qed.

(** ** Claims C1, C2, C3 and C10 *)

(** C1, as the code has it.  For every worksheet the decoder returns a
    grid whose [max_row] and [max_col] bound every retained cell, with
    [max_col] the largest retained column and [max_row] the largest
    retained row unless that is below the initial 0 (a cell addressed with
    row number 0 has index -1); both are 0 for an empty grid.  Elements that
    hold no row, such as a declared dimension, and the root's own tag and
    attributes do not change the result; a step never lowers a bound or
    forgets an address; a cell whose value is blank is never stored and
    never updates a bound: its step leaves the grid untouched, except that
    an address whose row number has more than 4300 digits makes the step
    raise [ValueError], as it does for any cell. *)
Theorem bounds_from_retained_cells (xml_content : part)
    (shared_strings : list pystr) (g : grid) :
  parse_worksheet_xml xml_content shared_strings = Py.Return g ->
  bounds_from_data g
  /\ (forall r c, retained g r c -> -1 <= r /\ 0 <= c)
  /\ (forall t a x t' a' x' pre d post,
        xml_content = Xml (Elem t a x (pre ++ post)) ->
        (forall e, e ∈ iter d -> tag e ≠ tag_row) ->
        parse_worksheet_xml (Xml (Elem t' a' x' (pre ++ d :: post)))
          shared_strings = Py.Return g)
  /\ (forall g0 cell g1,
        cell_step shared_strings g0 cell = Py.Return g1 ->
        max_row g0 <= max_row g1 /\ max_col g0 <= max_col g1
        /\ dom (cells g0) ⊆ dom (cells g1))
  /\ (forall g0 cell v,
        resolve_cell_value shared_strings cell = Py.Return v ->
        Py.strip v = [] ->
        (forall g1, cell_step shared_strings g0 cell = Py.Return g1 ->
                    g1 = g0)
        /\ (~ oversized_address cell ->
            cell_step shared_strings g0 cell = Py.Return g0)
        /\ (oversized_address cell ->
            cell_step shared_strings g0 cell = Py.Raise Py.ValueError)).
Proof.
  intros Hparse.
  destruct (parse_worksheet_xml_inv _ _ _ Hparse) as [Hb He].
  split; [done|]. split; [|split; [|split]].
  - intros r c [v Hv]. by destruct (He r c v Hv) as (? & ? & _).
  - intros t a x t' a' x' pre d post -> Hd. rewrite <- Hparse.
    unfold parse_worksheet_xml. simpl. by rewrite (findall_skip t' a' x').
  - intros g0 cell g1. apply cell_step_mono.
  - intros g0 cell v Hv Hblank. split; [|split].
    + intros g1. by eapply cell_step_blank_returns.
    + by eapply cell_step_blank.
    + apply cell_step_oversized.
Qed.

Lemma bounds_from_retained_cells_witness :
  parse_worksheet_xml over_declared_sheet []
  = Py.Return (Grid {[ (0, 0) := u "Name"; (0, 1) := u "Age";
                       (1, 0) := u "Alice"; (1, 1) := u "30" ]} 1 1)
  /\ bounds_from_data (Grid {[ (0, 0) := u "Name"; (0, 1) := u "Age";
                               (1, 0) := u "Alice"; (1, 1) := u "30" ]} 1 1).
Proof.
  split; [reflexivity|].
  apply (bounds_from_retained_cells over_declared_sheet []). reflexivity.
Defined.

(** C1 as stated fails: the only retained cell of this sheet has row index
    -1, and [max_row] is 0. *)
Lemma max_row_above_only_retained_row :
  parse_worksheet_xml
    (Xml (worksheet_elem (u "A1") [[c_elem (u "A0") None (Some (u "x"))]])) []
  = Py.Return (Grid {[ (-1, 0) := u "x" ]} 0 0)
  /\ max_row (Grid {[ (-1, 0) := u "x" ]} 0 0) ≠ -1.
Proof. split; [reflexivity | discriminate]. Qed.

(** C2, as the code has it.  For a cell typed as a shared-string reference
    whose value node carries text: when [int] rejects the text (it is not
    an integer, or has more than 4300 digits), or the text is an index
    below minus the table's length, the cell's value is the raw text; when
    it is an index at or past the table's length the value is the empty
    string, so the cell is never stored: its step leaves the grid as it
    was, unless the cell's address has a row number of more than 4300
    digits, which raises [ValueError] before the value is looked at.
    Resolving the value does not raise in any of these cases.  "99999"
    against a table of 3 entries gives the empty string. *)
Theorem shared_string_fallback (shared_strings : list pystr)
    (cell value_elem : Element) (raw : pystr) :
  get cell (u "t") = Some (u "s") ->
  find cell tag_v = Some value_elem ->
  text value_elem = Some raw ->
  (forall e, Py.int (Some raw) = Py.Raise e ->
             resolve_cell_value shared_strings cell = Py.Return raw)
  /\ (forall i, Py.int (Some raw) = Py.Return i ->
                i < - Z.of_nat (length shared_strings) ->
                resolve_cell_value shared_strings cell = Py.Return raw)
  /\ (forall i, Py.int (Some raw) = Py.Return i ->
                Z.of_nat (length shared_strings) <= i ->
                resolve_cell_value shared_strings cell = Py.Return []
                /\ forall g,
                     (forall g', cell_step shared_strings g cell = Py.Return g'
                                 -> g' = g)
                     /\ (~ oversized_address cell ->
                         cell_step shared_strings g cell = Py.Return g)
                     /\ (oversized_address cell ->
                         cell_step shared_strings g cell
                         = Py.Raise Py.ValueError))
  /\ (raw = u "99999" -> length shared_strings = 3%nat ->
      resolve_cell_value shared_strings cell = Py.Return []).
Proof.
  intros Ht Hv Hraw.
  assert (forall i, Py.int (Some raw) = Py.Return i ->
                    Z.of_nat (length shared_strings) <= i ->
                    resolve_cell_value shared_strings cell = Py.Return [])
    as Hlarge.
  { intros i Hi Hge. unfold resolve_cell_value.
    rewrite Hv, Ht, Hraw, Hi. simpl.
    by destruct (Z.ltb_spec i (Z.of_nat (length shared_strings))); [lia|]. }
  split; [|split; [|split]].
  - intros e He. unfold resolve_cell_value. rewrite Hv, Ht, Hraw, He.
    by rewrite (int_raises_ValueError _ _ He).
  - intros i Hi Hlt. unfold resolve_cell_value.
    rewrite Hv, Ht, Hraw, Hi. simpl.
    destruct (Z.ltb_spec i (Z.of_nat (length shared_strings))); [|lia].
    unfold Py.getitem.
    destruct (Z.ltb_spec i 0); [|lia].
    by destruct (Z.leb_spec 0 (i + Z.of_nat (length shared_strings))); [lia|].
  - intros i Hi Hge. split; [by eapply Hlarge|].
    intros g. split; [|split].
    + intros g'. eapply cell_step_blank_returns; [by eapply Hlarge | done].
    + eapply cell_step_blank; [by eapply Hlarge | done].
    + apply cell_step_oversized.
  - intros -> Hlen. apply (Hlarge 99999); [done | lia].
Qed.

Lemma shared_string_fallback_witness :
  resolve_cell_value [u "a"; u "b"; u "c"]
    (c_elem (u "A1") (Some (u "s")) (Some (u "n/a")))
  = Py.Return (u "n/a")
  /\ resolve_cell_value [u "a"; u "b"; u "c"]
       (c_elem (u "A1") (Some (u "s")) (Some (u "-4")))
     = Py.Return (u "-4").
Proof.
  split.
  - destruct (shared_string_fallback [u "a"; u "b"; u "c"]
                (c_elem (u "A1") (Some (u "s")) (Some (u "n/a")))
                (Elem tag_v ∅ (Some (u "n/a")) []) (u "n/a")
                eq_refl eq_refl eq_refl) as (Hfail & _).
    apply (Hfail Py.ValueError). reflexivity.
  - destruct (shared_string_fallback [u "a"; u "b"; u "c"]
                (c_elem (u "A1") (Some (u "s")) (Some (u "-4")))
                (Elem tag_v ∅ (Some (u "-4")) []) (u "-4")
                eq_refl eq_refl eq_refl) as (_ & Hbelow & _).
    apply (Hbelow (-4)); [reflexivity | simpl; lia].
Defined.

(** C2 as stated fails: a shared-string cell holding "99999" against a
    table of 3 entries resolves to the empty string, not to "99999", and
    the decoder drops it. *)
Lemma out_of_range_index_gives_empty :
  resolve_cell_value [u "a"; u "b"; u "c"]
    (c_elem (u "A1") (Some (u "s")) (Some (u "99999")))
  = Py.Return []
  /\ parse_worksheet_xml
       (Xml (worksheet_elem (u "A1")
               [[c_elem (u "A1") (Some (u "s")) (Some (u "99999"))]]))
       [u "a"; u "b"; u "c"]
     = Py.Return empty_grid.
Proof. split; reflexivity. Qed.

(** C10.  A shared-string cell whose value parses to [-k], with [k] between
    1 and the table's length, resolves to the entry [k] positions from the
    end of the table. *)
Theorem negative_index_counts_from_end (shared_strings : list pystr)
    (cell value_elem : Element) (k : Z) :
  get cell (u "t") = Some (u "s") ->
  find cell tag_v = Some value_elem ->
  Py.int (text value_elem) = Py.Return (- k) ->
  1 <= k <= Z.of_nat (length shared_strings) ->
  exists entry,
    nth_error shared_strings
      (Z.to_nat (Z.of_nat (length shared_strings) - k)) = Some entry
    /\ nth_error (rev shared_strings) (Z.to_nat (k - 1)) = Some entry
    /\ resolve_cell_value shared_strings cell = Py.Return entry.
Proof.
  intros Ht Hv Hi Hk.
  set (len := Z.of_nat (length shared_strings)) in *.
  destruct (nth_error shared_strings (Z.to_nat (len - k))) as [entry|] eqn:E.
  2:{ apply nth_error_None in E. lia. }
  exists entry. split; [done|]. split.
  - rewrite <- E, nth_error_rev.
    replace (Z.to_nat (k - 1) <? length shared_strings)%nat with true
      by (symmetry; apply Nat.ltb_lt; lia).
    f_equal. lia.
  - unfold resolve_cell_value. rewrite Hv, Ht, Hi. simpl.
    fold len. destruct (Z.ltb_spec (- k) len); [|lia].
    unfold Py.getitem. fold len.
    destruct (Z.ltb_spec (- k) 0); [|lia].
    replace (- k + len) with (len - k) by lia.
    destruct (Z.leb_spec 0 (len - k)); [|lia].
    destruct (Z.ltb_spec (len - k) len); [|lia].
    simpl. by rewrite E.
Qed.

Lemma negative_index_counts_from_end_witness :
  exists entry,
    nth_error [u "a"; u "b"; u "c"] (Z.to_nat (3 - 1)) = Some entry
    /\ nth_error (rev [u "a"; u "b"; u "c"]) (Z.to_nat (1 - 1)) = Some entry
    /\ resolve_cell_value [u "a"; u "b"; u "c"]
         (c_elem (u "A1") (Some (u "s")) (Some (u "-1"))) = Py.Return entry.
Proof.
  apply (negative_index_counts_from_end [u "a"; u "b"; u "c"]
           (c_elem (u "A1") (Some (u "s")) (Some (u "-1")))
           (Elem tag_v ∅ (Some (u "-1")) []) 1);
    [reflexivity | reflexivity | reflexivity | simpl; lia].
Defined.

(** C3, as the code has it.  The resolved value is trimmed only to test
    it: a cell whose trimmed value is empty is discarded, grid and bounds
    unchanged; otherwise the entry inserted at the cell's address is the
    resolved value as it stands, and the bounds are extended to the
    address.  Every value stored in a decoded grid has a non-empty trim. *)
Theorem blank_test_stores_value_as_is (shared_strings : list pystr)
    (g : grid) (cell : Element) (ref : pystr) (row col : Z) (v : pystr) :
  get cell (u "r") = Some ref ->
  ref ≠ [] ->
  excel_cell_to_coords ref = Py.Return (Some row, Some col) ->
  resolve_cell_value shared_strings cell = Py.Return v ->
  (Py.strip v = [] -> cell_step shared_strings g cell = Py.Return g)
  /\ (Py.strip v ≠ [] ->
      cell_step shared_strings g cell
      = Py.Return (Grid (<[(row, col) := v]> (cells g))
                        (Z.max (max_row g) row) (Z.max (max_col g) col)))
  /\ (forall xml_content g' k v',
        parse_worksheet_xml xml_content shared_strings = Py.Return g' ->
        cells g' !! k = Some v' -> Py.strip v' ≠ []).
Proof.
  intros Hr Hne Hc Hv. split; [|split].
  - intros Hb. unfold cell_step. rewrite Hr.
    apply is_empty_false in Hne. rewrite Hne, Hc. simpl. rewrite Hv. simpl.
    by rewrite store_cell_blank.
  - intros Hb. unfold cell_step. rewrite Hr.
    apply is_empty_false in Hne. rewrite Hne, Hc. simpl. rewrite Hv. simpl.
    by rewrite store_cell_nonblank.
  - intros xml_content g' [r c] v' Hp Hk.
    destruct (parse_worksheet_xml_inv _ _ _ Hp) as [_ He].
    by destruct (He r c v' Hk) as (_ & _ & ?).
Qed.

Lemma blank_test_stores_value_as_is_witness :
  cell_step [] empty_grid (c_elem (u "B2") None (Some (u " x ")))
  = Py.Return (Grid (<[(1, 1) := u " x "]> ∅) (Z.max 0 1) (Z.max 0 1)).
Proof.
  apply (blank_test_stores_value_as_is [] empty_grid
           (c_elem (u "B2") None (Some (u " x "))) (u "B2") 1 1 (u " x "));
    [reflexivity | discriminate | reflexivity | reflexivity | discriminate].
Defined.

(** C3 as stated fails: the value " x " is stored with its blanks, and is
    not equal to its own trim. *)
Lemma stored_value_keeps_its_blanks :
  parse_worksheet_xml
    (Xml (worksheet_elem (u "A1") [[c_elem (u "A1") None (Some (u " x "))]]))
    []
  = Py.Return (Grid {[ (0, 0) := u " x " ]} 0 0)
  /\ Py.strip (u " x ") = u "x"
  /\ u " x " ≠ Py.strip (u " x ").
Proof. split; [reflexivity|]. split; [reflexivity | discriminate]. Qed.

(** ** The serializer: claim C7 *)

Lemma range_elem i n : In i (Py.range n) <-> 0 <= i < n.
Proof.
  unfold Py.range. rewrite in_map_iff. split.
  - intros (k & <- & Hk%in_seq). lia.
  - intros Hi. exists (Z.to_nat i). split; [lia|]. apply in_seq. lia.
Qed.

Lemma fold_left_append {A B} (f : A -> B) l : forall init,
  fold_left (fun acc x => acc ++ [f x]) l init = init ++ map f l.
Proof.
  induction l as [|x l IH]; intros init; simpl.
  - by rewrite List.app_nil_r.
  - by rewrite IH, <- List.app_assoc.
Qed.

Lemma fold_left_append_if {A B} (f : A -> B) (p : B -> bool) l : forall init,
  fold_left (fun acc x => if p (f x) then acc ++ [f x] else acc) l init
  = init ++ map f (List.filter (fun x => p (f x)) l).
Proof.
  induction l as [|x l IH]; intros init; simpl.
  - by rewrite List.app_nil_r.
  - rewrite IH. destruct (p (f x)); [|done].
    simpl. by rewrite <- List.app_assoc.
Qed.

Lemma row_data_of_dense cells max_col r :
  row_data_of cells max_col r = dense_row cells max_col r.
Proof. unfold row_data_of. by rewrite fold_left_append. Qed.

Lemma any_nonblank_dense cells max_col r :
  any_nonblank (dense_row cells max_col r) = true
  <-> row_nonblank cells max_col r.
Proof.
  unfold any_nonblank, dense_row, row_nonblank.
  rewrite existsb_exists. split.
  - intros (v & (c & <- & Hc%range_elem)%in_map_iff & Hv%truthy_strip).
    exists c. split; [lia | done].
  - intros (c & Hc & Hv). exists (cell_at cells r c). split.
    + apply in_map_iff. exists c. split; [done|]. apply range_elem. lia.
    + by apply truthy_strip.
Qed.

Lemma csv_rows_filter cells max_row max_col :
  csv_rows cells max_row max_col
  = map (dense_row cells max_col)
        (List.filter (fun r => any_nonblank (dense_row cells max_col r))
                     (Py.range (max_row + 1))).
Proof.
  unfold csv_rows.
  rewrite (fold_left_append_if (row_data_of cells max_col) any_nonblank).
  simpl. rewrite (List.map_ext _ _ (row_data_of_dense cells max_col)).
  f_equal. apply List.filter_ext. intros r. by rewrite row_data_of_dense.
Qed.

(** C7.  The serializer walks the rows 0..max_row; row [r] is the list of
    the entries at the columns 0..max_col, a missing entry read as the
    empty string; a row is emitted if and only if one of these cells is
    non-empty after trimming, and the emitted rows keep their order.  A
    grid with non-blank cells in rows 0 and 2 only gives exactly 2 rows. *)
Theorem serializer_drops_blank_rows (cells : gmap (Z * Z) pystr)
    (max_row max_col : Z) :
  (exists kept,
      csv_rows cells max_row max_col = map (dense_row cells max_col) kept
      /\ kept = List.filter
                  (fun r => any_nonblank (dense_row cells max_col r))
                  (Py.range (max_row + 1))
      /\ (forall r, In r kept
                    <-> 0 <= r <= max_row /\ row_nonblank cells max_col r))
  /\ (forall r c, cell_at cells r c
                  = match cells !! (r, c) with Some v => v | None => [] end)
  /\ (forall r, 0 <= max_col + 1 ->
                Z.of_nat (length (dense_row cells max_col r)) = max_col + 1
                /\ forall c, 0 <= c <= max_col ->
                     nth_error (dense_row cells max_col r) (Z.to_nat c)
                     = Some (cell_at cells r c))
  /\ (max_row = 2 ->
      row_nonblank cells max_col 0 -> ~ row_nonblank cells max_col 1 ->
      row_nonblank cells max_col 2 ->
      csv_rows cells max_row max_col
      = [dense_row cells max_col 0; dense_row cells max_col 2]
      /\ length (csv_rows cells max_row max_col) = 2%nat).
Proof.
  split; [|split; [|split]].
  - eexists. split; [apply csv_rows_filter|]. split; [done|].
    intros r. rewrite filter_In, range_elem, any_nonblank_dense.
    intuition lia.
  - intros r c. unfold cell_at. by destruct (cells !! (r, c)).
  - intros r Hc. unfold dense_row, Py.range. split.
    + rewrite !length_map, length_seq. lia.
    + intros c Hcc. rewrite !nth_error_map, nth_error_seq.
      replace (Z.to_nat c <? Z.to_nat (max_col + 1))%nat with true
        by (symmetry; apply Nat.ltb_lt; lia).
      simpl. f_equal. f_equal. lia.
  - intros -> H0 H1 H2. rewrite csv_rows_filter.
    apply any_nonblank_dense in H0, H2.
    assert (any_nonblank (dense_row cells max_col 1) = false) as H1'.
    { apply not_true_is_false. intros H. by apply H1, any_nonblank_dense. }
    change (Py.range (2 + 1)) with [0; 1; 2]. simpl.
    by rewrite H0, H1', H2.
Qed.

Lemma serializer_drops_blank_rows_witness :
  csv_rows {[ (0, 0) := (u "a"); (2, 1) := (u "b") ]} 2 1
  = [dense_row {[ (0, 0) := (u "a"); (2, 1) := (u "b") ]} 1 0;
     dense_row {[ (0, 0) := (u "a"); (2, 1) := (u "b") ]} 1 2]
  /\ length (csv_rows {[ (0, 0) := (u "a"); (2, 1) := (u "b") ]} 2 1) = 2%nat.
Proof.
  apply (serializer_drops_blank_rows {[ (0, 0) := (u "a"); (2, 1) := (u "b") ]} 2 1).
  - reflexivity.
  - exists 0. split; [lia | discriminate].
  - intros (c & Hc & Hv). apply Hv.
    assert (c = 0 \/ c = 1) as [-> | ->] by lia; reflexivity.
  - exists 1. split; [lia | discriminate].
Defined.

(** ** The driver: claims C4 and C9 *)

Ltac io_unfold :=
  unfold mbind, io_mbind, io_bind, lift, print, cells_to_csv, emit.


(** The loop stops at the first iteration that raises. *)
Lemma io_for_each_raises {A} (body : A -> io unit) pre a post log_pre log_a e :
  io_for_each body pre = (log_pre, Py.Return tt) ->
  body a = (log_a, Py.Raise e) ->
  io_for_each body (pre ++ a :: post) = (log_pre ++ log_a, Py.Raise e).
Proof.
  revert log_pre. induction pre as [|x pre IH]; intros log_pre; simpl.
  - intros [= <-] Ha. unfold mbind, io_mbind, io_bind. by rewrite Ha.
  - unfold mbind, io_mbind, io_bind.
    destruct (body x) as [log_x [[]|ex]]; [|done].
    destruct (io_for_each body pre) as [log_rest r] eqn:E.
    intros [= <- ->] Ha. rewrite (IH log_rest eq_refl Ha).
    by rewrite List.app_assoc.
Qed.


Lemma insert_sorted_In x y l : In y (insert_sorted x l) <-> y = x \/ In y l.
Proof.
  induction l as [|z l IH]; simpl; [intuition|].
  destruct (Py.leb x z); simpl; rewrite ?IH; intuition.
Qed.

Lemma sorted_In y l : In y (sorted l) <-> In y l.
Proof.
  unfold sorted. induction l as [|x l IH]; simpl; [done|].
  rewrite insert_sorted_In, IH. intuition.
Qed.











Lemma convert_unfold fs xlsx_file output z log_ss shared_strings :
  fs !! xlsx_file = Some (Zip z) ->
  parse_shared_strings z = (log_ss, Py.Return shared_strings) ->
  worksheet_files_of z ≠ [] ->
  convert_xlsx_to_csv fs xlsx_file output
  = let '(log, r) :=
      io_for_each
        (worksheet_step z shared_strings (output_dir_of xlsx_file output)
                        (base_name_of xlsx_file))
        (sorted (worksheet_files_of z)) in
    ([MakeDirs (output_dir_of xlsx_file output)] ++ log_ss
     ++ [Stdout (MsgFoundWorksheets
                  (Z.of_nat (length (worksheet_files_of z))))] ++ log, r).
Proof.
  intros Hfs Hss Hne. unfold convert_xlsx_to_csv, open_zip. io_unfold.
  rewrite Hfs, Hss.
  destruct (worksheet_files_of z) as [|w ws] eqn:E; [done|].
  destruct (io_for_each _ _) as [log r]. simpl.
  by rewrite <- ?List.app_assoc.
Qed.

Lemma convert_no_worksheets fs xlsx_file output z log_ss shared_strings :
  fs !! xlsx_file = Some (Zip z) ->
  parse_shared_strings z = (log_ss, Py.Return shared_strings) ->
  worksheet_files_of z = [] ->
  convert_xlsx_to_csv fs xlsx_file output
  = ([MakeDirs (output_dir_of xlsx_file output)] ++ log_ss
     ++ [Stdout MsgNoWorksheets], Py.Return tt).
Proof.
  intros Hfs Hss He. unfold convert_xlsx_to_csv, open_zip. io_unfold.
  rewrite Hfs, Hss, He. simpl. by rewrite <- ?List.app_assoc.
Qed.

Lemma main_step_log fs output log t xlsx_file :
  exists log',
    (main_step fs output (log, t) xlsx_file).1
    = log ++ Stdout (MsgFileHeader xlsx_file) :: log'.
Proof.
  unfold main_step.
  destruct (fs !! xlsx_file); [|eexists; by rewrite <- ?List.app_assoc].
  destruct (convert_xlsx_to_csv fs xlsx_file output) as [log' [[]|e]];
    eexists; simpl; by rewrite <- ?List.app_assoc.
Qed.

Lemma main_step_tally fs output log t xlsx_file :
  let t' := (main_step fs output (log, t) xlsx_file).2 in
  successful_conversions t' + failed_conversions t'
  = successful_conversions t + failed_conversions t + 1.
Proof.
  unfold main_step.
  destruct (fs !! xlsx_file); [|simpl; lia].
  destruct (convert_xlsx_to_csv fs xlsx_file output) as [log' [[]|e]];
    simpl; lia.
Qed.

(** Every file of the command line gets its turn, whatever happened to the
    files before it. *)
Lemma main_loop_attempts_all fs output xlsx_files : forall st,
  let st' := fold_left (main_step fs output) xlsx_files st in
  (forall ev, In ev st.1 -> In ev st'.1)
  /\ (forall f, In f xlsx_files -> In (Stdout (MsgFileHeader f)) st'.1)
  /\ successful_conversions st'.2 + failed_conversions st'.2
     = successful_conversions st.2 + failed_conversions st.2
       + Z.of_nat (length xlsx_files).
Proof.
  induction xlsx_files as [|x files IH]; intros [log t]; cbn zeta.
  - simpl. split; [done|]. split; [done | lia].
  - cbn [fold_left].
    destruct (main_step_log fs output log t x) as [log' Hlog].
    pose proof (main_step_tally fs output log t x) as Htally.
    destruct (main_step fs output (log, t) x) as [log1 t1] eqn:E.
    simpl in Hlog, Htally. subst log1.
    destruct (IH (log ++ Stdout (MsgFileHeader x) :: log', t1))
      as (Hkeep & Hall & Hsum).
    cbn [fst snd] in *. split; [|split].
    + intros ev Hev. apply Hkeep, in_or_app. by left.
    + intros f [<-|Hf]; [|by apply Hall].
      apply Hkeep, in_or_app. right. by left.
    + rewrite Hsum. cbn [length]. lia.
Qed.







(** C4, as the code has it.  When decoding one worksheet of a file raises,
    the loop over that file's worksheets ends there: the conversion of the
    file raises the same exception, after the events of the worksheets
    sorted before the failing one and nothing of those after it.  [main]
    catches the exception at the file boundary, counts the file as failed,
    and every file of the command line is still attempted. *)
Theorem worksheet_error_aborts_file (fs : gmap pystr file)
    (xlsx_file : pystr) (output : option pystr) (z : ZipFile)
    (log_ss : list event) (shared_strings : list pystr)
    (pre : list pystr) (w : pystr) (post : list pystr)
    (log_pre : list event) (p : part) (e : Py.exn) :
  fs !! xlsx_file = Some (Zip z) ->
  parse_shared_strings z = (log_ss, Py.Return shared_strings) ->
  sorted (worksheet_files_of z) = pre ++ w :: post ->
  io_for_each
    (worksheet_step z shared_strings (output_dir_of xlsx_file output)
                    (base_name_of xlsx_file)) pre
  = (log_pre, Py.Return tt) ->
  zip_open z w = Py.Return p ->
  parse_worksheet_xml p shared_strings = Py.Raise e ->
  let log :=
    [MakeDirs (output_dir_of xlsx_file output)] ++ log_ss
    ++ [Stdout (MsgFoundWorksheets (Z.of_nat (length (worksheet_files_of z))))]
    ++ log_pre ++ [Stdout (MsgProcessing w)] in
  convert_xlsx_to_csv fs xlsx_file output = (log, Py.Raise e)
  /\ (forall log0 t,
        main_step fs output (log0, t) xlsx_file
        = (log0 ++ [Stdout (MsgFileHeader xlsx_file)] ++ log
           ++ [Stdout (MsgFileError xlsx_file e)],
           Tally (successful_conversions t) (failed_conversions t + 1)))
  /\ (forall xlsx_files,
        (forall f, In f xlsx_files ->
                   In (Stdout (MsgFileHeader f)) (main fs xlsx_files output).1)
        /\ successful_conversions (main fs xlsx_files output).2
           + failed_conversions (main fs xlsx_files output).2
           = Z.of_nat (length xlsx_files)).
Proof.
  intros Hfs Hss Hsorted Hpre Hopen Hparse log.
  assert (convert_xlsx_to_csv fs xlsx_file output = (log, Py.Raise e))
    as Hconv.
  { rewrite (convert_unfold _ _ _ z log_ss shared_strings Hfs Hss).
    2:{ intros E. rewrite E in Hsorted. by destruct pre. }
    rewrite Hsorted.
    rewrite (io_for_each_raises _ pre w post log_pre
               [Stdout (MsgProcessing w)] e Hpre); [done|].
    unfold worksheet_step. io_unfold.
    by rewrite Hopen, Hparse. }
  split; [done|]. split.
  - intros log0 t. unfold main_step. rewrite Hfs, Hconv.
    by rewrite <- ?List.app_assoc.
  - intros xlsx_files. unfold main.
    pose proof (main_loop_attempts_all fs output xlsx_files ([], Tally 0 0))
      as (_ & Hall & Hsum).
    destruct (fold_left _ _ _) as [log' t']. cbn [fst snd] in *.
    split; [|simpl in Hsum; lia].
    intros f Hf. apply in_or_app. left. by apply Hall.
Qed.

Lemma worksheet_error_aborts_file_witness :
  convert_xlsx_to_csv {[ (u "book.xlsx") := Zip two_sheet_package ]}
    (u "book.xlsx") None
  = ([MakeDirs (u "."); Stdout MsgNoSharedStrings; Stdout (MsgFoundWorksheets 2);
      Stdout (MsgProcessing (u "xl/worksheets/sheet1.xml"))],
     Py.Raise Py.TypeError).
Proof.
  apply (worksheet_error_aborts_file
           {[ (u "book.xlsx") := Zip two_sheet_package ]} (u "book.xlsx") None
           two_sheet_package [Stdout MsgNoSharedStrings] []
           [] (u "xl/worksheets/sheet1.xml") [(u "xl/worksheets/sheet2.xml")] []
           (Xml (worksheet_elem (u "A1") [[c_elem (u "A1") (Some (u "s")) None]]))
           Py.TypeError);
    reflexivity.
Defined.

(** C4 as stated fails: sheet 1 of this file raises while it is decoded;
    the conversion of the file raises, and sheet 2, whose decoding yields
    data, is never processed nor written. *)
Lemma second_sheet_not_processed :
  convert_xlsx_to_csv {[ (u "book.xlsx") := Zip two_sheet_package ]}
    (u "book.xlsx") None
  = ([MakeDirs (u "."); Stdout MsgNoSharedStrings; Stdout (MsgFoundWorksheets 2);
      Stdout (MsgProcessing (u "xl/worksheets/sheet1.xml"))],
     Py.Raise Py.TypeError)
  /\ sorted (worksheet_files_of two_sheet_package)
     = [(u "xl/worksheets/sheet1.xml"); (u "xl/worksheets/sheet2.xml")]
  /\ (parse_worksheet_xml
        (Xml (worksheet_elem (u "A1") [[c_elem (u "A1") None (Some (u "Name"))]])) []
      = Py.Return (Grid {[ (0, 0) := (u "Name") ]} 0 0)).
Proof. repeat split; reflexivity. Qed.



(** * Further properties of the script *)

(** ** Column letters *)

Lemma column_loop_upper f : forall n acc,
  forallb Py.is_upper acc = true ->
  forallb Py.is_upper (column_index_to_letter_loop f n acc) = true.
Proof.
  induction f as [|f IH]; intros n acc Hacc; [done|].
  cbn [column_index_to_letter_loop].
  destruct (Z.ltb_spec 0 n); [|done].
  apply IH. cbn [forallb]. rewrite Hacc, andb_true_r.
  pose proof (Z.mod_pos_bound (n - 1) 26 ltac:(lia)).
  apply is_upper_ord. change (Py.ord (cp "A")) with 65.
  rewrite ord_chr by lia. lia.
Qed.

(** X1.  Whatever the column number, [column_index_to_letter] returns
    letters A-Z only, and it returns the empty string exactly for the
    numbers that are not positive. *)
Theorem column_letters_shape (n : Z) :
  forallb Py.is_upper (column_index_to_letter n) = true
  /\ (column_index_to_letter n = [] <-> n <= 0).
Proof.
  split; [by apply column_loop_upper|]. split.
  - intros E. destruct (Z.le_gt_cases n 0) as [|Hpos]; [done|].
    pose proof (letters_to_number_column n ltac:(lia)) as H.
    rewrite E in H. cbn in H. lia.
  - intros Hn. change (to_letters n [] = []).
    rewrite to_letters_eq. by destruct (Z.ltb_spec 0 n); [lia|].
Qed.

(** X2.  Reading a string of letters A-Z as a column number and writing
    that number back in letters gives the string again; a non-empty
    string reads as a number of at least 1. *)
Theorem letters_number_letters (s : pystr) :
  forallb Py.is_upper s = true ->
  column_index_to_letter (letters_to_number s) = s
  /\ (s ≠ [] -> 1 <= letters_to_number s).
Proof.
  intros Hs. split; [by apply column_of_letters|].
  destruct s as [|c s]; [done|]. intros _.
  by apply col_letters_loop_pos.
Qed.

Lemma letters_number_letters_witness :
  column_index_to_letter (letters_to_number (u "XFD")) = (u "XFD")
  /\ ((u "XFD") ≠ [] -> 1 <= letters_to_number (u "XFD")).
Proof. apply (letters_number_letters (u "XFD")). reflexivity. Defined.

(** X3.  Two different non-negative column numbers never get the same
    letters. *)
Theorem column_letters_injective (n m : Z) :
  0 <= n -> 0 <= m -> n ≠ m ->
  column_index_to_letter n ≠ column_index_to_letter m.
Proof.
  intros Hn Hm Hne E. apply Hne.
  rewrite <- (letters_to_number_column n Hn), <- (letters_to_number_column m Hm).
  by rewrite E.
Qed.

Lemma column_letters_injective_witness :
  column_index_to_letter 26 ≠ column_index_to_letter 702.
Proof. apply (column_letters_injective 26 702); lia. Defined.

(** ** Decoding a reference *)

(** X4.  [excel_cell_to_coords] raises in one case only, [ValueError]
    when the pattern takes more than 4300 digits from the reference;
    otherwise it returns either no coordinate at all or both of them, and
    then the column index is at least 0 and the row index at least -1. *)
Theorem decode_raises_only_past_digit_limit (cell_ref : pystr) :
  (oversized cell_ref
   /\ excel_cell_to_coords cell_ref = Py.Raise Py.ValueError)
  \/ (~ oversized cell_ref
      /\ (excel_cell_to_coords cell_ref = Py.Return (None, None)
          \/ exists row col,
               excel_cell_to_coords cell_ref = Py.Return (Some row, Some col)
               /\ -1 <= row /\ 0 <= col)).
Proof.
  destruct (decide (oversized cell_ref)) as [Hov|Hno].
  - left. split; [done|]. by apply excel_cell_to_coords_raises.
  - right. split; [done|]. by apply excel_cell_to_coords_returns.
Qed.

Lemma match_cell_ref_stop ls ds rest :
  letters ls -> digits ds ->
  (rest = [] \/ exists c rest', rest = c :: rest' /\ Py.is_digit c = false) ->
  match_cell_ref (ls ++ ds ++ rest) = Some (ls, ds).
Proof.
  intros Hl Hd Hrest.
  destruct (match_cell_ref_prefix ls ds rest Hl Hd)
    as (ds' & E & _ & Hnil & Hstop).
  assert (ds' = []) as ->.
  { destruct Hrest as [->|(c & rest' & -> & Hc)]; [by apply Hnil|].
    by eapply Hstop. }
  by rewrite List.app_nil_r in E.
Qed.

(** X5.  What follows the digits of a reference is ignored: letters, then
    decimal digits, then anything that does not start with a decimal
    digit, decodes as the letters and digits alone do, to their
    coordinates when the digits are at most 4300. *)
Theorem decode_ignores_trailing_text (ls ds rest : pystr) :
  letters ls -> digits ds ->
  (rest = [] \/ exists c rest', rest = c :: rest' /\ Py.is_digit c = false) ->
  excel_cell_to_coords (ls ++ ds ++ rest) = excel_cell_to_coords (ls ++ ds)
  /\ (within_limit ds ->
      excel_cell_to_coords (ls ++ ds ++ rest)
      = Py.Return (Some (dec_value 0 ds - 1),
                   Some (letters_to_number ls - 1))).
Proof.
  intros Hl Hd Hrest.
  pose proof (match_cell_ref_stop ls ds rest Hl Hd Hrest) as E.
  split.
  - rewrite (excel_cell_to_coords_Some _ ls ds E).
    by rewrite (excel_cell_to_coords_Some _ ls ds)
      by (by apply match_cell_ref_fully).
  - intros Hw. by apply excel_cell_to_coords_within.
Qed.

Lemma decode_ignores_trailing_text_witness :
  excel_cell_to_coords (u "B3:D9") = excel_cell_to_coords (u "B3")
  /\ (within_limit (u "3") ->
      excel_cell_to_coords (u "B3:D9") = Py.Return (Some 2, Some 1)).
Proof.
  refine (decode_ignores_trailing_text (u "B") (u "3") (u ":D9") _ _ _).
  - split; [done | reflexivity].
  - split; [done | reflexivity].
  - right. exists (cp ":"), (u "D9"). split; reflexivity.
Defined.

(** X6.  A zero written in front of the row number does not change the
    decoded coordinates as long as the digits, the zero counted, are at
    most 4300; with a row number of exactly 4300 digits the zero makes the
    decoding raise [ValueError]. *)
Theorem decode_ignores_leading_zero (ls ds : pystr) :
  letters ls -> digits ds ->
  (within_limit (cp "0" :: ds) ->
   excel_cell_to_coords (ls ++ cp "0" :: ds)
   = excel_cell_to_coords (ls ++ ds))
  /\ (Z.of_nat (length ds) = Py.max_str_digits ->
      excel_cell_to_coords (ls ++ cp "0" :: ds) = Py.Raise Py.ValueError
      /\ excel_cell_to_coords (ls ++ ds)
         = Py.Return (Some (dec_value 0 ds - 1),
                      Some (letters_to_number ls - 1))).
Proof.
  intros Hl Hd.
  assert (digits (cp "0" :: ds)) as Hd0.
  { split; [done|]. cbn [forallb]. by destruct Hd as [_ ->]. }
  pose proof (match_cell_ref_fully ls _ Hl Hd0) as E0.
  pose proof (match_cell_ref_fully ls _ Hl Hd) as E.
  split.
  - intros Hw. rewrite (excel_cell_to_coords_within _ _ _ E0 Hw).
    rewrite (excel_cell_to_coords_within _ _ _ E).
    2:{ unfold within_limit in *. cbn [length] in Hw. lia. }
    done.
  - intros Hlen. split.
    + apply excel_cell_to_coords_raises. split; [done|].
      apply oversized_spec. exists ls, (cp "0" :: ds). split; [done|].
      unfold within_limit. cbn [length]. lia.
    + apply excel_cell_to_coords_within; [done|]. unfold within_limit. lia.
Qed.

Lemma decode_ignores_leading_zero_witness :
  excel_cell_to_coords (u "C007") = excel_cell_to_coords (u "C07").
Proof.
  destruct (decode_ignores_leading_zero (u "C") (u "07")) as [H _].
  - split; [done | reflexivity].
  - split; [done | reflexivity].
  - apply H. unfold within_limit. vm_compute. discriminate.
Defined.

Lemma decode_canonical_eq ls1 ds1 ls2 ds2 :
  letters ls1 -> canonical_digits ds1 -> within_limit ds1 ->
  letters ls2 -> canonical_digits ds2 -> within_limit ds2 ->
  excel_cell_to_coords (ls1 ++ ds1) = excel_cell_to_coords (ls2 ++ ds2) ->
  ls1 = ls2 /\ ds1 = ds2.
Proof.
  intros Hl1 Hc1 Hw1 Hl2 Hc2 Hw2.
  rewrite (excel_cell_to_coords_within _ ls1 ds1)
    by first [done | apply match_cell_ref_fully;
                       [done | apply ascii_digits_digits, Hc1]].
  rewrite (excel_cell_to_coords_within _ ls2 ds2)
    by first [done | apply match_cell_ref_fully;
                       [done | apply ascii_digits_digits, Hc2]].
  intros [= Hrow Hcol]. split.
  - rewrite <- (column_of_letters ls1), <- (column_of_letters ls2)
      by (apply Hl1 || apply Hl2).
    f_equal. lia.
  - destruct (to_digits_canonical ds1 Hc1) as [_ <-].
    destruct (to_digits_canonical ds2 Hc2) as [_ <-].
    f_equal. lia.
Qed.

(** X7.  Two different references in full letters-then-digits form, both
    written in digits 0-9 without superfluous leading zero and with at
    most 4300 digits, never decode to the same coordinates. *)
Theorem decode_injective_on_canonical (ls1 ds1 ls2 ds2 : pystr) :
  letters ls1 -> canonical_digits ds1 -> within_limit ds1 ->
  letters ls2 -> canonical_digits ds2 -> within_limit ds2 ->
  ls1 ++ ds1 ≠ ls2 ++ ds2 ->
  excel_cell_to_coords (ls1 ++ ds1) ≠ excel_cell_to_coords (ls2 ++ ds2).
Proof.
  intros Hl1 Hc1 Hw1 Hl2 Hc2 Hw2 Hne E. apply Hne.
  by destruct (decode_canonical_eq _ _ _ _ Hl1 Hc1 Hw1 Hl2 Hc2 Hw2 E)
    as [-> ->].
Qed.

Lemma decode_injective_on_canonical_witness :
  excel_cell_to_coords (u "A11") ≠ excel_cell_to_coords (u "K1").
Proof.
  apply (decode_injective_on_canonical (u "A") (u "11") (u "K") (u "1")).
  - split; [done | reflexivity].
  - split; [split; [done | reflexivity] |].
    right. exists (cp "1"), (u "1"). split; [reflexivity | discriminate].
  - unfold within_limit. vm_compute. discriminate.
  - split; [done | reflexivity].
  - split; [split; [done | reflexivity] |].
    right. exists (cp "1"), []. split; [reflexivity | discriminate].
  - unfold within_limit. vm_compute. discriminate.
  - discriminate.
Defined.

(** ** Decoding a worksheet *)

Lemma for_each_app {A S} (body : S -> A -> Py.outcome S) l1 l2 s :
  for_each body (l1 ++ l2) s
  = Py.bind (for_each body l1 s) (for_each body l2).
Proof.
  revert s. induction l1 as [|a l1 IH]; intros s; simpl; [done|].
  destruct (body s a) as [s'|e]; simpl; [apply IH | done].
Qed.

Lemma for_each_flat_map {A B S} (body : S -> B -> Py.outcome S)
    (f : A -> list B) l s :
  for_each (fun s a => for_each body (f a) s) l s
  = for_each body (flat_map f l) s.
Proof.
  revert s. induction l as [|a l IH]; intros s; simpl; [done|].
  rewrite for_each_app. unfold mbind, outcome_bind.
  destruct (for_each body (f a) s) as [s'|e]; simpl; [apply IH | done].
Qed.

Lemma parse_worksheet_xml_visited root shared_strings :
  parse_worksheet_xml (Xml root) shared_strings
  = for_each (cell_step shared_strings) (visited_cells root) empty_grid.
Proof. unfold parse_worksheet_xml. simpl. apply for_each_flat_map. Qed.

Lemma matches_prefix_not_empty ref : matches_prefix ref -> ref ≠ [].
Proof.
  intros (ls & ds & rest & -> & [Hl _] & _). by apply app_not_empty.
Qed.

Lemma excel_cell_to_coords_matches ref row col :
  excel_cell_to_coords ref = Py.Return (Some row, Some col) ->
  matches_prefix ref /\ ~ oversized ref.
Proof.
  intros E. split.
  - destruct (match_cell_ref ref) as [[ls ds]|] eqn:Em.
    + apply match_cell_ref_Some in Em as (Hl & Hd & rest & ->).
      by exists ls, ds, rest.
    + unfold excel_cell_to_coords in E. by rewrite Em in E.
  - intros H. assert (excel_cell_to_coords ref = Py.Raise Py.ValueError)
      by (by apply excel_cell_to_coords_raises). congruence.
Qed.

Lemma excel_cell_to_coords_decodes ref :
  matches_prefix ref -> ~ oversized ref ->
  exists row col, excel_cell_to_coords ref = Py.Return (Some row, Some col).
Proof.
  intros Hm Hno.
  destruct (excel_cell_to_coords_returns ref Hno) as [E|(r & c & E & _)];
    [|eauto].
  exfalso. revert Hm. apply match_cell_ref_None.
  destruct (match_cell_ref ref) as [[ls ds]|] eqn:Em; [|done].
  rewrite (excel_cell_to_coords_Some _ _ _ Em) in E.
  by destruct (Py.max_str_digits <? Z.of_nat (length ds)).
Qed.

Lemma raises_at_functional cell e e' :
  raises_at cell e -> raises_at cell e' -> e = e'.
Proof.
  intros [[-> (_ & _ & ref & Hr & _ & Hno)]|[-> (ref & Hr & Hov)]]
         [[-> (_ & _ & ref' & Hr' & _ & Hno')]|[-> (ref' & Hr' & Hov')]];
    try done; congruence.
Qed.

Section Cells.

Context (shared_strings : list pystr).

Lemma cell_step_store cell ref row col v :
  get cell (u "r") = Some ref ->
  excel_cell_to_coords ref = Py.Return (Some row, Some col) ->
  resolve_cell_value shared_strings cell = Py.Return v ->
  forall g, cell_step shared_strings g cell
            = Py.Return (store_cell g row col v).
Proof.
  intros Hr Hc Hv g. unfold cell_step. rewrite Hr.
  pose proof (matches_prefix_not_empty _
                (proj1 (excel_cell_to_coords_matches _ _ _ Hc)))
    as Hne%is_empty_false.
  rewrite Hne, Hc. simpl. by rewrite Hv.
Qed.

Lemma resolve_raises cell e :
  resolve_cell_value shared_strings cell = Py.Raise e <->
  e = Py.TypeError
  /\ get cell (u "t") = Some (u "s")
  /\ exists value_elem,
       find cell tag_v = Some value_elem /\ text value_elem = None.
Proof.
  unfold resolve_cell_value. split.
  - destruct (find cell tag_v) as [ve|]; [|done].
    case_bool_decide as Ht; [|done].
    destruct (text ve) as [raw|] eqn:Hraw.
    + destruct (Py.int (Some raw)) as [i|e'] eqn:Hi; simpl.
      * destruct (_ <? _); [|done]. unfold Py.getitem.
        repeat case_match; done.
      * by rewrite (int_raises_ValueError _ _ Hi).
    + simpl. intros [= <-]. eauto.
  - intros (-> & Ht & ve & -> & Hraw). rewrite Hraw.
    by rewrite bool_decide_eq_true_2.
Qed.

Lemma cell_step_raises g cell e :
  cell_step shared_strings g cell = Py.Raise e <-> raises_at cell e.
Proof.
  unfold raises_at, textless_reference. split.
  - destruct (oversized_addressb cell) eqn:Hb.
    { apply oversized_addressb_spec in Hb.
      rewrite (cell_step_oversized _ _ _ Hb). intros [= <-]. by right. }
    assert (~ oversized_address cell) as Hno
      by (rewrite <- oversized_addressb_spec; congruence).
    unfold cell_step.
    destruct (get cell (u "r")) as [ref|] eqn:Hr; [|done].
    destruct (Py.is_empty ref); [done|].
    assert (~ oversized ref) as Hno' by (intros ?; apply Hno; by exists ref).
    destruct (excel_cell_to_coords_returns ref Hno')
      as [->|(row & col & Hc & _)]; [done|].
    rewrite Hc. simpl.
    destruct (resolve_cell_value shared_strings cell) as [v|e'] eqn:Hv;
      [done|]. simpl. intros [= ->].
    apply resolve_raises in Hv as (-> & Ht & Hve).
    left. repeat split; try done. exists ref. split; [done|].
    by eapply excel_cell_to_coords_matches.
  - intros [(-> & Ht & Hve & ref & Hr & Hm & Hno)|[-> Hov]];
      [|by apply cell_step_oversized].
    assert (resolve_cell_value shared_strings cell = Py.Raise Py.TypeError)
      as Hv by (by apply resolve_raises).
    unfold cell_step. rewrite Hr.
    pose proof (matches_prefix_not_empty _ Hm) as Hne%is_empty_false.
    rewrite Hne.
    destruct (excel_cell_to_coords_decodes ref Hm Hno) as (row & col & ->).
    simpl. by rewrite Hv.
Qed.

Lemma cell_step_returns_iff g cell :
  (exists g', cell_step shared_strings g cell = Py.Return g')
  <-> forall e, ~ raises_at cell e.
Proof.
  split.
  - intros [g' E] e He%(cell_step_raises g). congruence.
  - intros Hno. destruct (cell_step shared_strings g cell) as [g'|e] eqn:E;
      [eauto|]. apply cell_step_raises in E. by destruct (Hno e).
Qed.

(** The decode raises what the first raising cell raises. *)
Lemma for_each_cells_raises l : forall g e,
  for_each (cell_step shared_strings) l g = Py.Raise e <->
  exists pre cell post,
    l = pre ++ cell :: post
    /\ (forall c e', In c pre -> ~ raises_at c e')
    /\ raises_at cell e.
Proof.
  induction l as [|cell l IH]; intros g e; simpl.
  - split; [done | intros (pre & ? & ? & E & _); by destruct pre].
  - destruct (cell_step shared_strings g cell) as [g'|e'] eqn:E; simpl.
    + assert (forall e0, ~ raises_at cell e0) as Hok.
      { apply (cell_step_returns_iff g). eauto. }
      rewrite IH. split.
      * intros (pre & c & post & -> & Hpre & Hc).
        exists (cell :: pre), c, post. split; [done|]. split; [|done].
        intros c0 e0 [<-|Hin]; [apply Hok | by apply Hpre].
      * intros (pre & c & post & El & Hpre & Hc).
        destruct pre as [|c0 pre]; simpl in El.
        -- injection El as <- <-. by destruct (Hok e).
        -- injection El as <- ->. exists pre, c, post.
           split; [done|]. split; [|done].
           intros c1 e1 Hin. apply Hpre. by right.
    + apply cell_step_raises in E. split.
      * intros [= <-]. exists [], cell, l. by repeat split.
      * intros (pre & c & post & El & Hpre & Hc).
        destruct pre as [|c0 pre]; simpl in El.
        -- injection El as <- <-. f_equal.
           eapply raises_at_functional; eauto.
        -- injection El as <- ->. destruct (Hpre cell e'); [by left | done].
Qed.

Lemma for_each_cells_returns l : forall g g',
  for_each (cell_step shared_strings) l g = Py.Return g' ->
  forall c e, In c l -> ~ raises_at c e.
Proof.
  induction l as [|cell l IH]; intros g g'; simpl; [done|].
  destruct (cell_step shared_strings g cell) as [g1|e1] eqn:E; [|done].
  simpl. intros Hl c e [<-|Hin].
  - intros He%(cell_step_raises g). congruence.
  - by eapply IH.
Qed.

End Cells.

(** X8.  Decoding a well-formed worksheet raises exactly when one of the
    visited cells raises, and it raises what the first such cell does:
    [ValueError] for a cell whose address has a row number of more than
    4300 digits, [TypeError] for a cell typed as a shared-string reference
    that has a decoded address and a value node without text.  No other
    cell raises. *)
Theorem decode_raises_iff_a_cell_raises (root : Element)
    (shared_strings : list pystr) (e : Py.exn) :
  (parse_worksheet_xml (Xml root) shared_strings = Py.Raise e <->
   exists pre cell post,
     visited_cells root = pre ++ cell :: post
     /\ (forall c e', In c pre -> ~ raises_at c e')
     /\ raises_at cell e)
  /\ (forall cell e',
        raises_at cell e' <->
        (e' = Py.TypeError /\ textless_reference cell)
        \/ (e' = Py.ValueError /\ oversized_address cell))
  /\ (forall cell g e',
        cell_step shared_strings g cell = Py.Raise e' <-> raises_at cell e').
Proof.
  split; [|split].
  - rewrite parse_worksheet_xml_visited. apply for_each_cells_raises.
  - done.
  - intros cell g e'. apply cell_step_raises.
Qed.

(** X9.  A shared-string cell whose value is an index within the table
    resolves to the table entry at that index. *)
Theorem shared_string_lookup (shared_strings : list pystr)
    (cell value_elem : Element) (i : Z) :
  get cell (u "t") = Some (u "s") ->
  find cell tag_v = Some value_elem ->
  Py.int (text value_elem) = Py.Return i ->
  0 <= i < Z.of_nat (length shared_strings) ->
  exists entry,
    nth_error shared_strings (Z.to_nat i) = Some entry
    /\ resolve_cell_value shared_strings cell = Py.Return entry.
Proof.
  intros Ht Hv Hi Hrange.
  destruct (nth_error shared_strings (Z.to_nat i)) as [entry|] eqn:E.
  2:{ apply nth_error_None in E. lia. }
  exists entry. split; [done|].
  unfold resolve_cell_value. rewrite Hv, Ht, Hi. simpl.
  destruct (Z.ltb_spec i (Z.of_nat (length shared_strings))); [|lia].
  unfold Py.getitem.
  destruct (Z.ltb_spec i 0); [lia|].
  destruct (Z.leb_spec 0 i); [|lia].
  destruct (Z.ltb_spec i (Z.of_nat (length shared_strings))); [|lia].
  simpl. by rewrite E.
Qed.

Lemma shared_string_lookup_witness :
  exists entry,
    nth_error [(u "Name"); (u "Age")] (Z.to_nat 1) = Some entry
    /\ resolve_cell_value [(u "Name"); (u "Age")] (c_elem (u "B1") (Some (u "s")) (Some (u " 1 ")))
       = Py.Return entry.
Proof.
  apply (shared_string_lookup [(u "Name"); (u "Age")]
           (c_elem (u "B1") (Some (u "s")) (Some (u " 1 ")))
           (Elem tag_v ∅ (Some (u " 1 ")) []) 1);
    [reflexivity | reflexivity | reflexivity | simpl; lia].
Defined.

(** X10.  A cell without value node is never stored, whatever its type
    and whatever else it contains: its step leaves the grid and its bounds
    unchanged, unless the cell's address has a row number of more than
    4300 digits, in which case the step raises [ValueError]. *)
Theorem cell_without_value_is_dropped (shared_strings : list pystr)
    (g : grid) (cell : Element) :
  find cell tag_v = None ->
  (~ oversized_address cell -> cell_step shared_strings g cell = Py.Return g)
  /\ (oversized_address cell ->
      cell_step shared_strings g cell = Py.Raise Py.ValueError)
  /\ (forall g', cell_step shared_strings g cell = Py.Return g' -> g' = g).
Proof.
  intros Hv.
  assert (resolve_cell_value shared_strings cell = Py.Return []) as Hres.
  { unfold resolve_cell_value. by rewrite Hv. }
  split; [|split].
  - by apply (cell_step_blank shared_strings g cell []).
  - apply cell_step_oversized.
  - intros g'. by apply (cell_step_blank_returns shared_strings g cell []).
Qed.

Lemma cell_without_value_is_dropped_witness :
  cell_step [] empty_grid
    (Elem tag_c {[ u "r" := u "A1"; u "t" := u "inlineStr" ]} None
          [Elem (ns ++ u "is") ∅ None [Elem tag_t ∅ (Some (u "Name")) []]])
  = Py.Return empty_grid.
Proof.
  apply (cell_without_value_is_dropped [] empty_grid); [reflexivity|].
  intros H%oversized_addressb_spec. discriminate H.
Defined.

Lemma store_cell_idempotent g row col v :
  store_cell (store_cell g row col v) row col v = store_cell g row col v.
Proof.
  destruct (decide (Py.strip v = [])) as [Hb|Hb].
  - by rewrite !store_cell_blank.
  - rewrite !store_cell_nonblank by done. simpl.
    rewrite insert_insert_eq. f_equal; lia.
Qed.

Lemma store_cell_commute g r1 c1 v1 r2 c2 v2 :
  (r1, c1) ≠ (r2, c2) ->
  store_cell (store_cell g r1 c1 v1) r2 c2 v2
  = store_cell (store_cell g r2 c2 v2) r1 c1 v1.
Proof.
  intros Hne.
  destruct (decide (Py.strip v1 = [])) as [H1|H1];
    destruct (decide (Py.strip v2 = [])) as [H2|H2];
    rewrite ?store_cell_blank, ?store_cell_nonblank by done;
    rewrite ?store_cell_blank, ?store_cell_nonblank by done; try done.
  simpl. rewrite insert_insert_ne by done. f_equal; lia.
Qed.

(** X11.  Decoding the same cell a second time changes nothing: the grid
    reached after a cell is a fixed point of that cell's step. *)
Theorem cell_step_idempotent (shared_strings : list pystr) (g g1 : grid)
    (cell : Element) :
  cell_step shared_strings g cell = Py.Return g1 ->
  cell_step shared_strings g1 cell = Py.Return g1.
Proof.
  intros H. pose proof H as Hcases.
  apply cell_step_cases in Hcases
    as [->|(ref & row & col & v & Hr & Hc & Hv & ->)]; [done|].
  rewrite (cell_step_store shared_strings cell ref row col v Hr Hc Hv).
  by rewrite store_cell_idempotent.
Qed.

Lemma cell_step_idempotent_witness :
  cell_step [] (Grid {[ (0, 0) := (u "x") ]} 0 0) (c_elem (u "A1") None (Some (u "x")))
  = Py.Return (Grid {[ (0, 0) := (u "x") ]} 0 0).
Proof.
  apply (cell_step_idempotent [] empty_grid). reflexivity.
Defined.

(** X12.  When two cells decode to the same address, the later one
    replaces the earlier one if its value is not blank, and leaves it in
    place if its value is blank. *)
Theorem later_cell_wins_unless_blank (shared_strings : list pystr)
    (g : grid) (a b : Element) (ref_a ref_b : pystr) (row col : Z)
    (va vb : pystr) :
  get a (u "r") = Some ref_a -> get b (u "r") = Some ref_b ->
  excel_cell_to_coords ref_a = Py.Return (Some row, Some col) ->
  excel_cell_to_coords ref_b = Py.Return (Some row, Some col) ->
  resolve_cell_value shared_strings a = Py.Return va ->
  resolve_cell_value shared_strings b = Py.Return vb ->
  exists g2,
    for_each (cell_step shared_strings) [a; b] g = Py.Return g2
    /\ cells g2 !! (row, col)
       = if decide (Py.strip vb = [])
         then (if decide (Py.strip va = []) then cells g !! (row, col)
               else Some va)
         else Some vb.
Proof.
  intros Hra Hrb Hca Hcb Hva Hvb. simpl.
  rewrite (cell_step_store shared_strings a ref_a row col va Hra Hca Hva).
  simpl.
  rewrite (cell_step_store shared_strings b ref_b row col vb Hrb Hcb Hvb).
  simpl. eexists. split; [done|].
  destruct (decide (Py.strip vb = [])) as [Hb|Hb];
    destruct (decide (Py.strip va = [])) as [Ha|Ha];
    rewrite ?store_cell_blank, ?store_cell_nonblank by done;
    rewrite ?store_cell_blank, ?store_cell_nonblank by done;
    simpl; by rewrite ?lookup_insert_eq.
Qed.

Lemma later_cell_wins_unless_blank_witness :
  exists g2,
    for_each (cell_step [])
      [c_elem (u "A1") None (Some (u "old")); c_elem (u "A01") None (Some (u "new"))]
      empty_grid = Py.Return g2
    /\ cells g2 !! (0, 0)
       = if decide (Py.strip (u "new") = [])
         then (if decide (Py.strip (u "old") = []) then cells empty_grid !! (0, 0)
               else Some (u "old"))
         else Some (u "new").
Proof.
  apply (later_cell_wins_unless_blank [] empty_grid
           (c_elem (u "A1") None (Some (u "old"))) (c_elem (u "A01") None (Some (u "new")))
           (u "A1") (u "A01") 0 0 (u "old") (u "new"));
    reflexivity.
Defined.

(** X13.  Two cells that decode to different addresses can be decoded in
    either order: the resulting grid and bounds are the same. *)
Theorem cells_at_different_addresses_commute (shared_strings : list pystr)
    (g : grid) (a b : Element) (ref_a ref_b : pystr)
    (row_a col_a row_b col_b : Z) (va vb : pystr) :
  get a (u "r") = Some ref_a -> get b (u "r") = Some ref_b ->
  excel_cell_to_coords ref_a = Py.Return (Some row_a, Some col_a) ->
  excel_cell_to_coords ref_b = Py.Return (Some row_b, Some col_b) ->
  resolve_cell_value shared_strings a = Py.Return va ->
  resolve_cell_value shared_strings b = Py.Return vb ->
  (row_a, col_a) ≠ (row_b, col_b) ->
  for_each (cell_step shared_strings) [a; b] g
  = for_each (cell_step shared_strings) [b; a] g.
Proof.
  intros Hra Hrb Hca Hcb Hva Hvb Hne. simpl.
  rewrite !(cell_step_store shared_strings a ref_a row_a col_a va Hra Hca Hva).
  rewrite !(cell_step_store shared_strings b ref_b row_b col_b vb Hrb Hcb Hvb).
  simpl.
  rewrite !(cell_step_store shared_strings a ref_a row_a col_a va Hra Hca Hva).
  rewrite !(cell_step_store shared_strings b ref_b row_b col_b vb Hrb Hcb Hvb).
  simpl. by rewrite store_cell_commute.
Qed.

Lemma cells_at_different_addresses_commute_witness :
  for_each (cell_step [(u "n")])
    [c_elem (u "B2") None (Some (u "30")); c_elem (u "A1") (Some (u "s")) (Some (u "0"))]
    empty_grid
  = for_each (cell_step [(u "n")])
      [c_elem (u "A1") (Some (u "s")) (Some (u "0")); c_elem (u "B2") None (Some (u "30"))]
      empty_grid.
Proof.
  apply (cells_at_different_addresses_commute [(u "n")] empty_grid
           (c_elem (u "B2") None (Some (u "30"))) (c_elem (u "A1") (Some (u "s")) (Some (u "0")))
           (u "B2") (u "A1") 1 1 0 0 (u "30") (u "n"));
    try reflexivity.
  discriminate.
Defined.

(** X14.  Cells are looked for inside row elements only: a tree in which
    no proper descendant of the root carries the row tag of the spreadsheet
    namespace decodes to the empty grid, whatever cell elements it has. *)
Theorem no_row_element_no_data (root : Element)
    (shared_strings : list pystr) :
  (forall e, In e (flat_map iter (children root)) -> tag e ≠ tag_row) ->
  parse_worksheet_xml (Xml root) shared_strings = Py.Return empty_grid.
Proof.
  intros Hno. rewrite parse_worksheet_xml_visited.
  unfold visited_cells, findall.
  replace (filter (fun d => tag d = tag_row) (flat_map iter (children root)))
    with (@nil Element); [done|].
  symmetry. induction (flat_map iter (children root)) as [|e l IH]; [done|].
  rewrite filter_cons_False by (apply Hno; by left).
  apply IH. intros e' He'. apply Hno. by right.
Qed.

Lemma no_row_element_no_data_witness :
  parse_worksheet_xml
    (Xml (Elem (u "worksheet") ∅ None
            [Elem (u "sheetData") ∅ None
               [Elem (u "row") ∅ None [c_elem (u "A1") None (Some (u "Name"))]]])) []
  = Py.Return empty_grid.
Proof.
  apply (no_row_element_no_data
           (Elem (u "worksheet") ∅ None
              [Elem (u "sheetData") ∅ None
                 [Elem (u "row") ∅ None [c_elem (u "A1") None (Some (u "Name"))]]]) []).
  intros e He. vm_compute in He.
  repeat (destruct He as [<-|He]; [discriminate|]). destruct He.
Defined.

Lemma for_each_fixed {A S} (body : S -> A -> Py.outcome S) l s :
  (forall a, In a l -> body s a = Py.Return s) ->
  for_each body l s = Py.Return s.
Proof.
  induction l as [|a l IH]; intros H; simpl; [done|].
  rewrite (H a) by (by left). simpl. apply IH. intros; apply H; by right.
Qed.

(** X15.  A worksheet all of whose visited cells resolve to blank values
    never yields data: when no visited address has a row number of more
    than 4300 digits it decodes to the empty grid, however many cells it
    has and wherever they are, and the driver then writes no file for it
    and only reports that no data was found; when some visited address
    has such a row number the decode raises [ValueError]. *)
Theorem blank_sheet_writes_nothing (root : Element)
    (shared_strings : list pystr) :
  (forall cell, In cell (visited_cells root) ->
     exists v, resolve_cell_value shared_strings cell = Py.Return v
               /\ Py.strip v = []) ->
  ((forall cell, In cell (visited_cells root) -> ~ oversized_address cell) ->
   parse_worksheet_xml (Xml root) shared_strings = Py.Return empty_grid
   /\ forall z output_dir base_name w,
        zip_open z w = Py.Return (Xml root) ->
        exists sheet_name,
          worksheet_step z shared_strings output_dir base_name w
          = ([Stdout (MsgProcessing w); Stdout (MsgNoData sheet_name)],
             Py.Return tt))
  /\ ((exists cell, In cell (visited_cells root) /\ oversized_address cell) ->
      parse_worksheet_xml (Xml root) shared_strings
      = Py.Raise Py.ValueError).
Proof.
  intros Hblank. split.
  - intros Hno.
    assert (parse_worksheet_xml (Xml root) shared_strings
            = Py.Return empty_grid) as Hparse.
    { rewrite parse_worksheet_xml_visited. apply for_each_fixed.
      intros cell Hcell. destruct (Hblank cell Hcell) as (v & Hv & Hb).
      eapply cell_step_blank; eauto. }
    split; [done|].
    intros z output_dir base_name w Hopen. unfold worksheet_step. io_unfold.
    rewrite Hopen, Hparse. simpl. by eexists.
  - intros (cell & Hcell & Hov).
    destruct (parse_worksheet_xml (Xml root) shared_strings) as [g|e] eqn:E.
    + rewrite parse_worksheet_xml_visited in E.
      destruct (for_each_cells_returns _ _ _ _ E cell Py.ValueError Hcell).
      by right.
    + f_equal. rewrite parse_worksheet_xml_visited in E.
      apply for_each_cells_raises in E
        as (pre & c & post & El & _ & [[_ (Ht & Hve & _)]|[-> _]]); [|done].
      destruct (Hblank c) as (v & Hv & _).
      { rewrite El. apply in_or_app. right. by left. }
      destruct Hve as (ve & Hf & Hx).
      assert (resolve_cell_value shared_strings c = Py.Raise Py.TypeError)
        as Hr.
      { apply resolve_raises. split; [done|]. split; [done | by exists ve]. }
      congruence.
Qed.

Lemma blank_sheet_writes_nothing_witness :
  parse_worksheet_xml
    (Xml (worksheet_elem (u "A1:XFD1048576")
            [[c_elem (u "A1") None (Some (u "  "))];
             [c_elem (u "XFD1048576") None None]])) []
  = Py.Return empty_grid.
Proof.
  destruct (blank_sheet_writes_nothing
              (worksheet_elem (u "A1:XFD1048576")
                 [[c_elem (u "A1") None (Some (u "  "))];
                  [c_elem (u "XFD1048576") None None]]) []) as [H _].
  - intros cell Hcell. vm_compute in Hcell.
    destruct Hcell as [<-|[<-|[]]]; eexists; split; reflexivity.
  - apply H. intros cell Hcell. vm_compute in Hcell.
    destruct Hcell as [<-|[<-|[]]];
      intros Hov%oversized_addressb_spec; discriminate Hov.
Defined.

(** ** Writing the rows *)

Lemma dense_row_nth cells max_col r c :
  0 <= c <= max_col ->
  nth_error (dense_row cells max_col r) (Z.to_nat c)
  = Some (cell_at cells r c).
Proof.
  intros Hc. unfold dense_row, Py.range.
  rewrite !nth_error_map, nth_error_seq.
  replace (Z.to_nat c <? Z.to_nat (max_col + 1))%nat with true
    by (symmetry; apply Nat.ltb_lt; lia).
  simpl. f_equal. f_equal. lia.
Qed.

Lemma dense_row_length cells max_col r :
  length (dense_row cells max_col r) = Z.to_nat (max_col + 1).
Proof. unfold dense_row, Py.range. by rewrite !length_map, length_seq. Qed.

Lemma csv_rows_In cells max_row max_col row_data :
  In row_data (csv_rows cells max_row max_col) <->
  exists r, 0 <= r <= max_row /\ row_nonblank cells max_col r
            /\ row_data = dense_row cells max_col r.
Proof.
  rewrite csv_rows_filter, in_map_iff. split.
  - intros (r & <- & [Hr Hnb]%filter_In). exists r.
    apply range_elem in Hr. apply any_nonblank_dense in Hnb.
    split; [lia | done].
  - intros (r & Hr & Hnb & ->). exists r. split; [done|].
    apply filter_In. split; [apply range_elem; lia|].
    by apply any_nonblank_dense.
Qed.

(** X16.  Decoding then writing loses no cell of a row the writer walks:
    every retained cell with a row index of at least 0 is found in the
    written rows, in the row of its index and at the position of its
    column, with the value as stored. *)
Theorem retained_cells_are_written (xml_content : part)
    (shared_strings : list pystr) (g : grid) (r c : Z) (v : pystr) :
  parse_worksheet_xml xml_content shared_strings = Py.Return g ->
  cells g !! (r, c) = Some v ->
  0 <= r ->
  In (dense_row (cells g) (max_col g) r)
     (csv_rows (cells g) (max_row g) (max_col g))
  /\ nth_error (dense_row (cells g) (max_col g) r) (Z.to_nat c) = Some v.
Proof.
  intros Hparse Hv Hr.
  destruct (parse_worksheet_xml_inv _ _ _ Hparse) as [(Hub & _) Hent].
  destruct (Hub r c) as [Hrm Hcm]; [by eexists|].
  destruct (Hent r c v Hv) as (_ & Hc0 & Hnb).
  assert (cell_at (cells g) r c = v) as Hat
    by (unfold cell_at; by rewrite Hv).
  split.
  - apply csv_rows_In. exists r. split; [lia|]. split; [|done].
    exists c. split; [lia|]. by rewrite Hat.
  - rewrite dense_row_nth by lia. by rewrite Hat.
Qed.

Lemma retained_cells_are_written_witness :
  In (dense_row {[ (0, 0) := (u "Name"); (0, 1) := (u "Age");
                   (1, 0) := (u "Alice"); (1, 1) := (u "30") ]} 1 1)
     (csv_rows {[ (0, 0) := (u "Name"); (0, 1) := (u "Age");
                  (1, 0) := (u "Alice"); (1, 1) := (u "30") ]} 1 1)
  /\ nth_error (dense_row {[ (0, 0) := (u "Name"); (0, 1) := (u "Age");
                             (1, 0) := (u "Alice"); (1, 1) := (u "30") ]} 1 1)
               (Z.to_nat 1) = Some (u "30").
Proof.
  pose proof (retained_cells_are_written over_declared_sheet []
                (Grid {[ (0, 0) := (u "Name"); (0, 1) := (u "Age");
                         (1, 0) := (u "Alice"); (1, 1) := (u "30") ]} 1 1)
                1 1 (u "30")) as H.
  cbn [cells max_row max_col] in H.
  apply H; [reflexivity | reflexivity | lia].
Defined.

(** X17.  The writer invents nothing: every written row is the row of an
    index between 0 and [max_row], has exactly [max_col + 1] fields, and
    each of its non-empty fields is the value the grid holds at that row
    and column. *)
Theorem written_fields_come_from_the_grid (cells : gmap (Z * Z) pystr)
    (max_row max_col : Z) (row_data : list pystr) :
  In row_data (csv_rows cells max_row max_col) ->
  length row_data = Z.to_nat (max_col + 1)
  /\ exists r,
       0 <= r <= max_row
       /\ forall i v,
            nth_error row_data i = Some v -> v ≠ [] ->
            cells !! (r, Z.of_nat i) = Some v.
Proof.
  intros (r & Hr & _ & ->)%csv_rows_In.
  split; [apply dense_row_length|].
  exists r. split; [done|]. intros i v Hi Hv.
  assert (i < length (dense_row cells max_col r))%nat as Hlt
    by (apply nth_error_Some; congruence).
  rewrite dense_row_length in Hlt.
  replace i with (Z.to_nat (Z.of_nat i)) in Hi by lia.
  rewrite dense_row_nth in Hi by lia.
  injection Hi as Hi. unfold cell_at in Hi.
  destruct (cells !! (r, Z.of_nat i)) as [v'|]; simpl in Hi; congruence.
Qed.

Lemma written_fields_come_from_the_grid_witness :
  length [(u "a"); []] = Z.to_nat (1 + 1)
  /\ exists r,
       0 <= r <= 2
       /\ forall i v,
            nth_error [(u "a"); []] i = Some v -> v ≠ [] ->
            ({[ (0, 0) := (u "a"); (2, 1) := (u "b") ]} : gmap (Z * Z) pystr)
              !! (r, Z.of_nat i) = Some v.
Proof.
  apply (written_fields_come_from_the_grid
           {[ (0, 0) := (u "a"); (2, 1) := (u "b") ]} 2 1 [(u "a"); []]).
  vm_compute. by left.
Defined.

(** ** Loading the shared strings *)

(** X18.  When the shared-string part is present and well formed, the
    table has one entry per string item, in document order and without
    warning: entry [i] is the text of the first text node below item [i],
    and the empty string when the item has none or when that node is
    empty, so that later items keep their index. *)
Theorem shared_strings_follow_items (z : ZipFile) (root : Element) :
  zip_open z (u "xl/sharedStrings.xml") = Py.Return (Xml root) ->
  exists table,
    parse_shared_strings z = ([], Py.Return table)
    /\ length table = length (findall root tag_si)
    /\ forall i si,
         nth_error (findall root tag_si) i = Some si ->
         nth_error table i
         = Some (match find si tag_t with
                 | Some t => match text t with Some s => s | None => [] end
                 | None => []
                 end).
Proof.
  intros Hopen. exists (map shared_string_of (findall root tag_si)).
  split; [|split].
  - unfold parse_shared_strings. rewrite Hopen. simpl.
    unfold mbind, io_mbind, io_bind, lift. simpl.
    by rewrite fold_left_append.
  - by rewrite length_map.
  - intros i si Hi. rewrite nth_error_map, Hi. simpl.
    unfold shared_string_of, Py.or_empty. by destruct (find si tag_t).
Qed.

Lemma shared_strings_follow_items_witness :
  exists table,
    parse_shared_strings
      {| members :=
           [((u "xl/sharedStrings.xml"),
             Xml (Elem (ns ++ (u "sst")) ∅ None
                    [Elem tag_si ∅ None [Elem tag_t ∅ (Some (u "Name")) []];
                     Elem tag_si ∅ None [];
                     Elem tag_si ∅ None
                       [Elem (ns ++ (u "r")) ∅ None
                          [Elem tag_t ∅ (Some (u "Al")) []];
                        Elem (ns ++ (u "r")) ∅ None
                          [Elem tag_t ∅ (Some (u "ice")) []]]]))] |}
    = ([], Py.Return table)
    /\ length table = 3%nat.
Proof.
  destruct (shared_strings_follow_items
              {| members :=
                   [((u "xl/sharedStrings.xml"),
                     Xml (Elem (ns ++ (u "sst")) ∅ None
                            [Elem tag_si ∅ None
                               [Elem tag_t ∅ (Some (u "Name")) []];
                             Elem tag_si ∅ None [];
                             Elem tag_si ∅ None
                               [Elem (ns ++ (u "r")) ∅ None
                                  [Elem tag_t ∅ (Some (u "Al")) []];
                                Elem (ns ++ (u "r")) ∅ None
                                  [Elem tag_t ∅ (Some (u "ice")) []]]]))] |}
              _ eq_refl) as (table & Hload & Hlen & _).
  exists table. split; [exact Hload | exact Hlen].
Defined.

(** ** The driver *)

Lemma main_step_raise fs output log t xlsx_file log' e :
  is_Some (fs !! xlsx_file) ->
  convert_xlsx_to_csv fs xlsx_file output = (log', Py.Raise e) ->
  main_step fs output (log, t) xlsx_file
  = (log ++ [Stdout (MsgFileHeader xlsx_file)] ++ log'
     ++ [Stdout (MsgFileError xlsx_file e)],
     Tally (successful_conversions t) (failed_conversions t + 1)).
Proof.
  intros [f Hf] Hconv. unfold main_step. rewrite Hf, Hconv.
  by rewrite <- ?List.app_assoc.
Qed.

Lemma main_step_return fs output log t xlsx_file log' :
  is_Some (fs !! xlsx_file) ->
  convert_xlsx_to_csv fs xlsx_file output = (log', Py.Return tt) ->
  main_step fs output (log, t) xlsx_file
  = (log ++ [Stdout (MsgFileHeader xlsx_file)] ++ log'
     ++ [Stdout (MsgConverted xlsx_file)],
     Tally (successful_conversions t + 1) (failed_conversions t)).
Proof.
  intros [f Hf] Hconv. unfold main_step. rewrite Hf, Hconv.
  by rewrite <- ?List.app_assoc.
Qed.

(** X19.  A shared-string part that is not well-formed XML is not
    degraded to an empty table: the conversion of the file raises the
    parse error right after making the output directory, before any
    worksheet is looked at, and [main] counts the file as failed. *)
Theorem malformed_shared_strings_fail_the_file (fs : gmap pystr file)
    (xlsx_file : pystr) (output : option pystr) (z : ZipFile) :
  fs !! xlsx_file = Some (Zip z) ->
  zip_open z (u "xl/sharedStrings.xml") = Py.Return Malformed ->
  convert_xlsx_to_csv fs xlsx_file output
  = ([MakeDirs (output_dir_of xlsx_file output)], Py.Raise Py.ParseError)
  /\ forall log t,
       main_step fs output (log, t) xlsx_file
       = (log ++ [Stdout (MsgFileHeader xlsx_file);
                  MakeDirs (output_dir_of xlsx_file output);
                  Stdout (MsgFileError xlsx_file Py.ParseError)],
          Tally (successful_conversions t) (failed_conversions t + 1)).
Proof.
  intros Hfs Hopen.
  assert (convert_xlsx_to_csv fs xlsx_file output
          = ([MakeDirs (output_dir_of xlsx_file output)],
             Py.Raise Py.ParseError)) as Hconv.
  { unfold convert_xlsx_to_csv, open_zip, parse_shared_strings. io_unfold.
    by rewrite Hfs, Hopen. }
  split; [done|]. intros log t.
  by rewrite (main_step_raise _ _ _ _ _ _ _ (mk_is_Some _ _ Hfs) Hconv).
Qed.

Lemma malformed_shared_strings_fail_the_file_witness :
  convert_xlsx_to_csv
    {[ (u "book.xlsx") :=
         Zip {| members := [((u "xl/sharedStrings.xml"), Malformed);
                            ((u "xl/worksheets/sheet1.xml"),
                             over_declared_sheet)] |} ]}
    (u "book.xlsx") (Some (u "out"))
  = ([MakeDirs (output_dir_of (u "book.xlsx") (Some (u "out")))],
     Py.Raise Py.ParseError).
Proof.
  apply (malformed_shared_strings_fail_the_file
           {[ (u "book.xlsx") :=
                Zip {| members := [((u "xl/sharedStrings.xml"), Malformed);
                                   ((u "xl/worksheets/sheet1.xml"),
                                    over_declared_sheet)] |} ]}
           (u "book.xlsx") (Some (u "out"))
           {| members := [((u "xl/sharedStrings.xml"), Malformed);
                          ((u "xl/worksheets/sheet1.xml"),
                           over_declared_sheet)] |});
    reflexivity.
Defined.

(** X20.  The output directory is made before the package is opened: for
    a path that does not hold a zip archive the conversion makes the
    directory and then raises, and nothing else happens. *)
Theorem directory_made_before_open (fs : gmap pystr file)
    (xlsx_file : pystr) (output : option pystr) :
  (forall z, fs !! xlsx_file ≠ Some (Zip z)) ->
  exists e,
    convert_xlsx_to_csv fs xlsx_file output
    = ([MakeDirs (output_dir_of xlsx_file output)], Py.Raise e)
    /\ (fs !! xlsx_file = Some NotAZip -> e = Py.BadZipFile)
    /\ (fs !! xlsx_file = None -> e = Py.FileNotFoundError).
Proof.
  intros Hno. unfold convert_xlsx_to_csv, open_zip. io_unfold.
  destruct (fs !! xlsx_file) as [[|z]|] eqn:E.
  - exists Py.BadZipFile. by repeat split.
  - by destruct (Hno z).
  - exists Py.FileNotFoundError. by repeat split.
Qed.

Lemma directory_made_before_open_witness :
  exists e,
    convert_xlsx_to_csv {[ (u "dir/notes.txt") := NotAZip ]} (u "dir/notes.txt") None
    = ([MakeDirs (output_dir_of (u "dir/notes.txt") None)], Py.Raise e).
Proof.
  destruct (directory_made_before_open
              {[ (u "dir/notes.txt") := NotAZip ]} (u "dir/notes.txt") None)
    as (e & He & _).
  - intros z H. vm_compute in H. discriminate H.
  - exists e. exact He.
Defined.

Lemma strip_prefix_app p s : strip_prefix p (p ++ s) = Some s.
Proof.
  induction p as [|c p IH]; [done|].
  simpl. by rewrite N.eqb_refl.
Qed.

Lemma startswith_app p s : Py.startswith (p ++ s) p = true.
Proof.
  induction p as [|c p IH]; [by destruct s|].
  simpl. by rewrite N.eqb_refl.
Qed.

Lemma endswith_app a s : Py.endswith (a ++ s) s = true.
Proof.
  induction a as [|c a IH].
  - destruct s; simpl; [done|]. by rewrite bool_decide_eq_true_2.
  - cbn [app Py.endswith]. rewrite IH. apply orb_true_r.
Qed.

Lemma search_sheet_num_here ds rest :
  digits ds ->
  (rest = [] \/ exists c rest', rest = c :: rest' /\ Py.is_digit c = false) ->
  search_sheet_num (u "sheet" ++ ds ++ rest) = Some ds.
Proof.
  intros [Hne Hdg] Hrest.
  assert (span Py.is_digit (ds ++ rest) = (ds, rest)) as Hspan.
  { rewrite span_app by done.
    assert (span Py.is_digit rest = ([], rest)) as ->.
    { destruct Hrest as [->|(c & rest' & -> & Hc)]; [done|].
      by apply span_stop. }
    cbn [fst snd]. by rewrite List.app_nil_r. }
  change (u "sheet" ++ ds ++ rest)
    with (cp "s" :: (u "heet" ++ ds ++ rest)).
  cbn [search_sheet_num].
  change (cp "s" :: (u "heet" ++ ds ++ rest))
    with (u "sheet" ++ ds ++ rest).
  rewrite strip_prefix_app, Hspan.
  apply is_empty_false in Hne. by rewrite Hne.
Qed.

Lemma search_sheet_num_skip c s :
  (strip_prefix (u "sheet") (c :: s) = None
   \/ exists rest0, strip_prefix (u "sheet") (c :: s) = Some rest0
                    /\ (span Py.is_digit rest0).1 = []) ->
  search_sheet_num (c :: s) = search_sheet_num s.
Proof.
  intros H. cbn [search_sheet_num].
  destruct H as [->|(rest0 & -> & Hspan)]; [done|].
  destruct (span Py.is_digit rest0) as [d r]. simpl in Hspan. by subst d.
Qed.

Lemma search_sheet_num_standard ds rest :
  digits ds ->
  (rest = [] \/ exists c rest', rest = c :: rest' /\ Py.is_digit c = false) ->
  search_sheet_num (u "xl/worksheets/sheet" ++ ds ++ rest) = Some ds.
Proof.
  intros Hd Hrest.
  rewrite <- (search_sheet_num_here ds rest Hd Hrest).
  change (u "xl/worksheets/sheet" ++ ds ++ rest)
    with (u "xl/worksheets/" ++ (u "sheet" ++ ds ++ rest)).
  set (tail := u "sheet" ++ ds ++ rest).
  change (u "xl/worksheets/")
    with [cp "x"; cp "l"; cp "/"; cp "w"; cp "o"; cp "r"; cp "k"; cp "s";
          cp "h"; cp "e"; cp "e"; cp "t"; cp "s"; cp "/"].
  cbn [app].
  do 14 (rewrite search_sheet_num_skip;
         [|first [left; reflexivity
                 |right; eexists; split; reflexivity]]).
  done.
Qed.

(** X21.  A worksheet part named xl/worksheets/sheet<digits>.xml is among
    the parts the driver selects, and when its grid is not empty its rows
    are written to the file <base name>_sheet<digits>.csv of the output
    directory, between the messages that report the data found and the
    file saved. *)
Theorem worksheet_written_under_its_number (z : ZipFile)
    (shared_strings : list pystr) (output_dir base_name ds : pystr)
    (p : part) (g : grid) :
  digits ds ->
  zip_open z (u "xl/worksheets/sheet" ++ ds ++ u ".xml") = Py.Return p ->
  parse_worksheet_xml p shared_strings = Py.Return g ->
  cells g ≠ ∅ ->
  let w := u "xl/worksheets/sheet" ++ ds ++ u ".xml" in
  let csv_filename :=
    os_path.join output_dir (base_name ++ u "_sheet" ++ ds ++ u ".csv") in
  is_worksheet_file w = true
  /\ worksheet_step z shared_strings output_dir base_name w
     = ([Stdout (MsgProcessing w);
         Stdout (MsgFoundData (Z.of_nat (size (cells g)))
                              (max_row g + 1) (max_col g + 1));
         WriteCsv csv_filename (csv_rows (cells g) (max_row g) (max_col g));
         Stdout (MsgSaved csv_filename)],
        Py.Return tt).
Proof.
  intros Hd Hopen Hparse Hne w csv_filename. subst w csv_filename. split.
  - unfold is_worksheet_file. rewrite startswith_app. cbn [andb].
    rewrite List.app_assoc. apply endswith_app.
  - unfold worksheet_step. io_unfold. rewrite Hopen, Hparse.
    rewrite search_sheet_num_standard; [|done|].
    2:{ right. exists (cp "."), (u "xml"). by split. }
    simpl. rewrite bool_decide_eq_false_2 by done. done.
Qed.

Lemma worksheet_written_under_its_number_witness :
  worksheet_step inline_package [] (u "out") (u "book")
    (u "xl/worksheets/sheet" ++ u "1" ++ u ".xml")
  = ([Stdout (MsgProcessing (u "xl/worksheets/sheet" ++ u "1" ++ u ".xml"));
      Stdout (MsgFoundData
                (Z.of_nat (size ({[ (0, 0) := u "Name"; (0, 1) := u "Age";
                                    (1, 0) := u "Alice"; (1, 1) := u "30" ]}
                                 : gmap (Z * Z) pystr)))
                (1 + 1) (1 + 1));
      WriteCsv (os_path.join (u "out")
                  (u "book" ++ u "_sheet" ++ u "1" ++ u ".csv"))
               (csv_rows {[ (0, 0) := u "Name"; (0, 1) := u "Age";
                            (1, 0) := u "Alice"; (1, 1) := u "30" ]} 1 1);
      Stdout (MsgSaved
                (os_path.join (u "out")
                   (u "book" ++ u "_sheet" ++ u "1" ++ u ".csv")))],
     Py.Return tt).
Proof.
  pose proof (worksheet_written_under_its_number inline_package [] (u "out")
                (u "book") (u "1") over_declared_sheet
                (Grid {[ (0, 0) := u "Name"; (0, 1) := u "Age";
                         (1, 0) := u "Alice"; (1, 1) := u "30" ]} 1 1)) as H.
  cbn [cells max_row max_col] in H. cbv zeta in H.
  apply H; [split; [done | reflexivity] | reflexivity | reflexivity |].
  apply insert_non_empty.
Defined.

(** X22.  A package without any worksheet part is not an error: once the
    shared strings are loaded the conversion reports that no worksheet was
    found, writes nothing and returns, and [main] counts the file among
    the successful conversions. *)
Theorem no_worksheet_counts_as_success (fs : gmap pystr file)
    (xlsx_file : pystr) (output : option pystr) (z : ZipFile)
    (log_ss : list event) (shared_strings : list pystr) :
  fs !! xlsx_file = Some (Zip z) ->
  parse_shared_strings z = (log_ss, Py.Return shared_strings) ->
  (forall name, In name (namelist z) -> is_worksheet_file name = false) ->
  convert_xlsx_to_csv fs xlsx_file output
  = ([MakeDirs (output_dir_of xlsx_file output)] ++ log_ss
     ++ [Stdout MsgNoWorksheets], Py.Return tt)
  /\ forall log t,
       (main_step fs output (log, t) xlsx_file).2
       = Tally (successful_conversions t + 1) (failed_conversions t).
Proof.
  intros Hfs Hss Hnone.
  assert (worksheet_files_of z = []) as He.
  { unfold worksheet_files_of.
    induction (namelist z) as [|n l IH]; [done|]. simpl.
    rewrite (Hnone n) by (by left). apply IH. intros; apply Hnone; by right. }
  pose proof (convert_no_worksheets _ _ output z _ _ Hfs Hss He) as Hconv.
  split; [done|]. intros log t.
  by rewrite (main_step_return _ _ _ _ _ _ (mk_is_Some _ _ Hfs) Hconv).
Qed.

Lemma no_worksheet_counts_as_success_witness :
  convert_xlsx_to_csv
    {[ (u "empty.xlsx") := Zip {| members := [((u "xl/workbook.xml"), Malformed)] |} ]}
    (u "empty.xlsx") None
  = ([MakeDirs (output_dir_of (u "empty.xlsx") None)]
     ++ [Stdout MsgNoSharedStrings] ++ [Stdout MsgNoWorksheets],
     Py.Return tt).
Proof.
  apply (no_worksheet_counts_as_success
           {[ (u "empty.xlsx") :=
                Zip {| members := [((u "xl/workbook.xml"), Malformed)] |} ]}
           (u "empty.xlsx") None
           {| members := [((u "xl/workbook.xml"), Malformed)] |}
           [Stdout MsgNoSharedStrings] []);
    [reflexivity | reflexivity |].
  intros name [<-|[]]. reflexivity.
Defined.







Lemma io_for_each_return_logs {A} (body : A -> io unit) l : forall log,
  io_for_each body l = (log, Py.Return tt) ->
  forall a, In a l ->
    exists la, body a = (la, Py.Return tt) /\ forall ev, In ev la -> In ev log.
Proof.
  induction l as [|x l IH]; intros log Hrun a Ha; [done|].
  simpl in Hrun. unfold mbind, io_mbind, io_bind in Hrun.
  destruct (body x) as [lx [[]|e]] eqn:Ex; [|done].
  destruct (io_for_each body l) as [ll r] eqn:El.
  injection Hrun as <- ->.
  destruct Ha as [<-|Ha].
  - exists lx. split; [done|]. intros ev Hev. apply in_or_app. by left.
  - destruct (IH ll eq_refl a Ha) as (la & Hla & Hsub).
    exists la. split; [done|]. intros ev Hev. apply in_or_app.
    right. by apply Hsub.
Qed.

Lemma worksheet_step_first_event z shared_strings output_dir base_name w :
  exists rest,
    (worksheet_step z shared_strings output_dir base_name w).1
    = Stdout (MsgProcessing w) :: rest.
Proof.
  unfold worksheet_step. io_unfold.
  destruct (zip_open z w) as [p|e]; [|by eexists].
  destruct (parse_worksheet_xml p shared_strings) as [g|e]; [|by eexists].
  destruct (bool_decide (cells g = ∅)); by eexists.
Qed.

(** X25.  A conversion that returns has gone through every worksheet part
    of the package: for each of them the processing message is among the
    events, and the part was decoded against the loaded table without
    raising. *)
Theorem returned_conversion_visits_every_worksheet (fs : gmap pystr file)
    (xlsx_file : pystr) (output : option pystr) (z : ZipFile)
    (log : list event) :
  fs !! xlsx_file = Some (Zip z) ->
  convert_xlsx_to_csv fs xlsx_file output = (log, Py.Return tt) ->
  forall w, In w (namelist z) -> is_worksheet_file w = true ->
    In (Stdout (MsgProcessing w)) log
    /\ exists p shared_strings g,
         (parse_shared_strings z).2 = Py.Return shared_strings
         /\ zip_open z w = Py.Return p
         /\ parse_worksheet_xml p shared_strings = Py.Return g.
Proof.
  intros Hfs Hconv w Hw Hsel.
  assert (In w (worksheet_files_of z)) as Hin by (by apply filter_In).
  destruct (parse_shared_strings z) as [log_ss [shared_strings|e]] eqn:Hss.
  2:{ unfold convert_xlsx_to_csv, open_zip in Hconv. revert Hconv.
      io_unfold. by rewrite Hfs, Hss. }
  rewrite (convert_unfold _ _ _ z _ _ Hfs Hss) in Hconv
    by (intros E; by rewrite E in Hin).
  destruct (io_for_each _ _) as [log_ws r] eqn:Hrun.
  injection Hconv as <- ->.
  destruct (io_for_each_return_logs _ _ _ Hrun w) as (lw & Hlw & Hsub);
    [by apply sorted_In|].
  split.
  - destruct (worksheet_step_first_event z shared_strings
                (output_dir_of xlsx_file output) (base_name_of xlsx_file) w)
      as [rest Hfirst].
    rewrite Hlw in Hfirst. simpl in Hfirst. subst lw.
    simpl. right. apply in_or_app. right. right.
    apply Hsub. by left.
  - revert Hlw. unfold worksheet_step. io_unfold.
    destruct (zip_open z w) as [p|e]; [|done].
    destruct (parse_worksheet_xml p shared_strings) as [g|e] eqn:Hp;
      [|done].
    intros _. by exists p, shared_strings, g.
Qed.

Lemma returned_conversion_visits_every_worksheet_witness :
  In (Stdout (MsgProcessing (u "xl/worksheets/sheet1.xml")))
     [MakeDirs (u "d"); Stdout MsgNoSharedStrings; Stdout (MsgFoundWorksheets 1);
      Stdout (MsgProcessing (u "xl/worksheets/sheet1.xml"));
      Stdout (MsgFoundData 4 2 2);
      WriteCsv (u "d/book_sheet1.csv") [[(u "Name"); (u "Age")]; [(u "Alice"); (u "30")]];
      Stdout (MsgSaved (u "d/book_sheet1.csv"))].
Proof.
  eapply (returned_conversion_visits_every_worksheet
            {[ (u "d/book.xlsx") := Zip inline_package ]} (u "d/book.xlsx") None
            inline_package).
  - reflexivity.
  - reflexivity.
  - right. left. reflexivity.
  - reflexivity.
Defined.

(** ** What the decoded grid holds *)

Section Contents.

Context (shared_strings : list pystr).

Lemma contributes_functional cell row col v row' col' v' :
  contributes shared_strings cell row col v ->
  contributes shared_strings cell row' col' v' ->
  row = row' /\ col = col' /\ v = v'.
Proof.
  intros (ref & Hr & Hc & Hv & _) (ref' & Hr' & Hc' & Hv' & _).
  rewrite Hr in Hr'. injection Hr' as <-.
  rewrite Hc in Hc'. rewrite Hv in Hv'. by simplify_eq.
Qed.

Lemma cell_step_contribution g cell g' :
  cell_step shared_strings g cell = Py.Return g' ->
  (exists row col v,
      contributes shared_strings cell row col v
      /\ g' = Grid (<[(row, col) := v]> (cells g))
                   (Z.max (max_row g) row) (Z.max (max_col g) col))
  \/ ((forall row col v, ~ contributes shared_strings cell row col v)
      /\ g' = g).
Proof.
  unfold cell_step.
  destruct (get cell (u "r")) as [ref|] eqn:Hr.
  2:{ intros [= <-]. right. split; [|done].
      intros row col v (ref & Hr' & _). congruence. }
  destruct (Py.is_empty ref) eqn:Hempty.
  { intros [= <-]. right. split; [|done].
    intros row col v (ref' & Hr' & Hc & _).
    rewrite Hr in Hr'. injection Hr' as <-.
    apply excel_cell_to_coords_matches in Hc as [Hc _].
    apply matches_prefix_not_empty in Hc.
    by apply is_empty_false in Hc; congruence. }
  destruct (excel_cell_to_coords ref) as [[[row|] [col|]]|e] eqn:Hc; simpl;
    try done;
    try (intros [= <-]; right; split; [|done];
         intros row' col' v' (ref' & Hr' & Hc' & _); congruence).
  destruct (resolve_cell_value shared_strings cell) as [v|e] eqn:Hv;
    [|done]. simpl. intros [= <-].
  destruct (decide (Py.strip v = [])) as [Hb|Hb].
  - right. rewrite store_cell_blank by done. split; [|done].
    intros row' col' v' (ref' & Hr' & _ & Hv' & Hnb). congruence.
  - left. exists row, col, v. rewrite store_cell_nonblank by done.
    split; [|done]. by exists ref.
Qed.

Lemma for_each_cells_contents l : forall g0 g row col v,
  for_each (cell_step shared_strings) l g0 = Py.Return g ->
  cells g !! (row, col) = Some v <->
  (exists before cell after,
      l = before ++ cell :: after
      /\ contributes shared_strings cell row col v
      /\ forall c' v', In c' after ->
           ~ contributes shared_strings c' row col v')
  \/ ((forall c' v', In c' l -> ~ contributes shared_strings c' row col v')
      /\ cells g0 !! (row, col) = Some v).
Proof.
  induction l as [|c l IH] using rev_ind; intros g0 g row col v Hrun.
  - injection Hrun as <-. split.
    + intros H. right. by split.
    + intros [(before & cell & after & E & _)|[_ H]]; [|done].
      by destruct before.
  - rewrite for_each_app in Hrun.
    destruct (for_each (cell_step shared_strings) l g0) as [g1|e] eqn:Hl;
      [|done].
    simpl in Hrun.
    destruct (cell_step shared_strings g1 c) as [g2|e] eqn:Hc; [|done].
    simpl in Hrun. injection Hrun as <-.
    specialize (IH g0 g1 row col v Hl).
    apply cell_step_contribution in Hc
      as [(r & k & w & Hcon & ->)|[Hnone ->]]; simpl.
    + destruct (decide ((r, k) = (row, col))) as [[= -> ->]|Hne].
      * rewrite lookup_insert_eq. split.
        -- intros [= <-]. left. exists l, c, []. by repeat split.
        -- intros [(before & cell & after & E & Hcell & Hafter)
                   |[Hno _]].
           ++ destruct after as [|a after _] using rev_ind.
              ** apply app_inj_tail in E as [_ <-].
                 by destruct (contributes_functional _ _ _ _ _ _ _ Hcon Hcell)
                   as (_ & _ & ->).
              ** rewrite app_comm_cons, List.app_assoc in E.
                 apply app_inj_tail in E as [_ <-].
                 exfalso. eapply (Hafter c w); [|done].
                 apply in_or_app. right. by left.
           ++ exfalso. eapply (Hno c w); [|done].
              apply in_or_app. right. by left.
      * rewrite lookup_insert_ne by done. rewrite IH. clear IH.
        assert (forall v', ~ contributes shared_strings c row col v')
          as Hc_other.
        { intros v' Hv'.
          destruct (contributes_functional _ _ _ _ _ _ _ Hcon Hv')
            as (-> & -> & _). done. }
        split.
        -- intros [(before & cell & after & -> & Hcell & Hafter)|[Hno Hg0]].
           ++ left. exists before, cell, (after ++ [c]).
              rewrite <- List.app_assoc. split; [done|]. split; [done|].
              intros c' v' [Hin|[<-|[]]]%in_app_or; [by apply Hafter|].
              apply Hc_other.
           ++ right. split; [|done].
              intros c' v' [Hin|[<-|[]]]%in_app_or; [by apply Hno|].
              apply Hc_other.
        -- intros [(before & cell & after & E & Hcell & Hafter)|[Hno Hg0]].
           ++ destruct after as [|a after _] using rev_ind.
              ** apply app_inj_tail in E as [_ <-].
                 by destruct (Hc_other v).
              ** rewrite app_comm_cons, List.app_assoc in E.
                 apply app_inj_tail in E as [-> <-].
                 left. exists before, cell, after. split; [done|].
                 split; [done|]. intros c' v' Hin. apply Hafter.
                 apply in_or_app. by left.
           ++ right. split; [|done]. intros c' v' Hin. apply Hno.
              apply in_or_app. by left.
    + rewrite IH. clear IH. split.
      * intros [(before & cell & after & -> & Hcell & Hafter)|[Hno Hg0]].
        -- left. exists before, cell, (after ++ [c]).
           rewrite <- List.app_assoc. split; [done|]. split; [done|].
           intros c' v' [Hin|[<-|[]]]%in_app_or; [by apply Hafter|].
           apply Hnone.
        -- right. split; [|done].
           intros c' v' [Hin|[<-|[]]]%in_app_or; [by apply Hno|].
           apply Hnone.
      * intros [(before & cell & after & E & Hcell & Hafter)|[Hno Hg0]].
        -- destruct after as [|a after _] using rev_ind.
           ++ apply app_inj_tail in E as [_ <-]. by destruct (Hnone row col v).
           ++ rewrite app_comm_cons, List.app_assoc in E.
              apply app_inj_tail in E as [-> <-].
              left. exists before, cell, after. split; [done|].
              split; [done|]. intros c' v' Hin. apply Hafter.
              apply in_or_app. by left.
        -- right. split; [|done]. intros c' v' Hin. apply Hno.
           apply in_or_app. by left.
Qed.

End Contents.

(** X26.  The decoded grid holds, at each address, the value of the last
    visited cell that decodes to this address with a non-blank value, and
    nothing at the addresses no such cell decodes to. *)
Theorem decoded_grid_holds_last_values (root : Element)
    (shared_strings : list pystr) (g : grid) (row col : Z) (v : pystr) :
  parse_worksheet_xml (Xml root) shared_strings = Py.Return g ->
  cells g !! (row, col) = Some v <->
  exists before cell after,
    visited_cells root = before ++ cell :: after
    /\ contributes shared_strings cell row col v
    /\ forall c' v', In c' after ->
         ~ contributes shared_strings c' row col v'.
Proof.
  rewrite parse_worksheet_xml_visited. intros Hrun.
  rewrite (for_each_cells_contents shared_strings _ _ _ row col v Hrun).
  split; [|by left].
  intros [H|[_ H]]; [done|]. simpl in H. by rewrite lookup_empty in H.
Qed.

Lemma decoded_grid_holds_last_values_witness :
  ({[ (0, 0) := (u "Name"); (0, 1) := (u "Age");
      (1, 0) := (u "Alice"); (1, 1) := (u "30") ]} : gmap (Z * Z) pystr)
    !! (1, 0) = Some (u "Alice").
Proof.
  pose proof (decoded_grid_holds_last_values
                (worksheet_elem (u "A1:XFD1048576")
                   [[c_elem (u "A1") None (Some (u "Name"));
                     c_elem (u "B1") None (Some (u "Age"))];
                    [c_elem (u "A2") None (Some (u "Alice"));
                     c_elem (u "B2") None (Some (u "30"))];
                    [c_elem (u "XFD1048576") None (Some (u " "))]])
                []
                (Grid {[ (0, 0) := (u "Name"); (0, 1) := (u "Age");
                         (1, 0) := (u "Alice"); (1, 1) := (u "30") ]} 1 1)
                1 0 (u "Alice")) as H.
  cbn [cells] in H. apply H; [reflexivity|].
  exists [c_elem (u "A1") None (Some (u "Name")); c_elem (u "B1") None (Some (u "Age"))],
         (c_elem (u "A2") None (Some (u "Alice"))),
         [c_elem (u "B2") None (Some (u "30")); c_elem (u "XFD1048576") None (Some (u " "))].
  split; [reflexivity|]. split.
  - exists (u "A2"). repeat split; try reflexivity. discriminate.
  - intros c' v' [<-|[<-|[]]] (ref & Hr & Hc & _);
      vm_compute in Hr; injection Hr as <-; vm_compute in Hc;
      discriminate Hc.
Defined.

(** ** What gets written *)

Lemma io_for_each_log_In {A} (body : A -> io unit) l : forall log r,
  io_for_each body l = (log, r) ->
  forall ev, In ev log -> exists a, In a l /\ In ev (body a).1.
Proof.
  induction l as [|x l IH]; intros log r Hrun ev Hev.
  - injection Hrun as <- <-. done.
  - simpl in Hrun. unfold mbind, io_mbind, io_bind in Hrun.
    destruct (body x) as [lx [[]|e]] eqn:Ex.
    + destruct (io_for_each body l) as [ll r'] eqn:El.
      injection Hrun as <- <-.
      apply in_app_or in Hev as [Hev|Hev].
      * exists x. split; [by left|]. by rewrite Ex.
      * destruct (IH ll r' eq_refl ev Hev) as (a & Ha & Hin).
        exists a. split; [by right | done].
    + injection Hrun as <- <-. exists x. split; [by left|]. by rewrite Ex.
Qed.

Lemma parse_shared_strings_log z ev :
  In ev (parse_shared_strings z).1 -> ev = Stdout MsgNoSharedStrings.
Proof.
  unfold parse_shared_strings.
  destruct (zip_open z (u "xl/sharedStrings.xml")) as [[|root]|[]]; simpl;
    try done.
  by intros [<-|[]].
Qed.

Ltac not_in_log :=
  let H := fresh "Hin" in
  simpl; intros H;
  repeat (destruct H as [H|H]; [discriminate H|]); destruct H.

Lemma worksheet_step_write z shared_strings output_dir base_name w
    output_file rows :
  In (WriteCsv output_file rows)
     (worksheet_step z shared_strings output_dir base_name w).1 ->
  exists p g,
    zip_open z w = Py.Return p
    /\ parse_worksheet_xml p shared_strings = Py.Return g
    /\ cells g ≠ ∅
    /\ rows = csv_rows (cells g) (max_row g) (max_col g).
Proof.
  unfold worksheet_step. io_unfold.
  destruct (zip_open z w) as [p|e] eqn:Hopen; [|not_in_log].
  destruct (parse_worksheet_xml p shared_strings) as [g|e] eqn:Hparse;
    [|not_in_log].
  case_bool_decide as Hempty; [not_in_log|].
  simpl. intros [H|[H|[H|H]]]; try discriminate H.
  - inversion H; subst. by exists p, g.
  - by destruct H as [H|[]].
Qed.

(** X27.  A CSV file is written only with the rows of a decoded worksheet
    that has data: every file the conversion writes holds the serialized
    grid of one selected worksheet part of the package, decoded without
    error against the loaded table, and that grid is not empty.  This holds
    also for the files written before a conversion that ends by raising. *)
Theorem written_files_hold_decoded_data (fs : gmap pystr file)
    (xlsx_file : pystr) (output : option pystr) (output_file : pystr)
    (rows : list (list pystr)) :
  In (WriteCsv output_file rows)
     (convert_xlsx_to_csv fs xlsx_file output).1 ->
  exists z shared_strings w p g,
    fs !! xlsx_file = Some (Zip z)
    /\ (parse_shared_strings z).2 = Py.Return shared_strings
    /\ In w (namelist z) /\ is_worksheet_file w = true
    /\ zip_open z w = Py.Return p
    /\ parse_worksheet_xml p shared_strings = Py.Return g
    /\ cells g ≠ ∅
    /\ rows = csv_rows (cells g) (max_row g) (max_col g).
Proof.
  destruct (fs !! xlsx_file) as [[|z]|] eqn:Hfs.
  1,3: unfold convert_xlsx_to_csv, open_zip; io_unfold; rewrite Hfs;
       not_in_log.
  destruct (parse_shared_strings z) as [log_ss [shared_strings|e]] eqn:Hss.
  2:{ unfold convert_xlsx_to_csv, open_zip. io_unfold. rewrite Hfs, Hss.
      simpl. intros [Hin|Hin]; [discriminate Hin|].
      assert (In (WriteCsv output_file rows) (parse_shared_strings z).1)
        as Hin' by (by rewrite Hss).
      by apply parse_shared_strings_log in Hin'. }
  assert (forall ev, In ev log_ss -> ev = Stdout MsgNoSharedStrings) as Hlog.
  { intros ev Hev. apply (parse_shared_strings_log z). by rewrite Hss. }
  destruct (worksheet_files_of z) as [|w0 ws0] eqn:E.
  - rewrite (convert_no_worksheets _ _ _ z _ _ Hfs Hss E). simpl.
    intros [Hin|[Hin|Hin]%in_app_or]; [discriminate Hin | | ].
    + by apply Hlog in Hin.
    + by destruct Hin as [Hin|[]].
  - rewrite (convert_unfold _ _ _ z _ _ Hfs Hss) by (by rewrite E).
    destruct (io_for_each _ _) as [log_ws r] eqn:Hrun. simpl.
    intros [Hin|[Hin|[Hin|Hin]]%in_app_or];
      [discriminate Hin | by apply Hlog in Hin | discriminate Hin |].
    destruct (io_for_each_log_In _ _ _ _ Hrun _ Hin) as (w & Hw & Hev).
    apply sorted_In, filter_In in Hw as [Hname Hsel].
    apply worksheet_step_write in Hev as (p & g & Hopen & Hparse & Hne & ->).
    exists z, shared_strings, w, p, g. by rewrite Hss.
Qed.

Lemma written_files_hold_decoded_data_witness :
  exists z shared_strings w p g,
    ({[ (u "d/book.xlsx") := Zip inline_package ]} : gmap pystr file)
      !! (u "d/book.xlsx") = Some (Zip z)
    /\ (parse_shared_strings z).2 = Py.Return shared_strings
    /\ In w (namelist z) /\ is_worksheet_file w = true
    /\ zip_open z w = Py.Return p
    /\ parse_worksheet_xml p shared_strings = Py.Return g
    /\ cells g ≠ ∅
    /\ [[(u "Name"); (u "Age")]; [(u "Alice"); (u "30")]]
       = csv_rows (cells g) (max_row g) (max_col g).
Proof.
  apply (written_files_hold_decoded_data
           {[ (u "d/book.xlsx") := Zip inline_package ]} (u "d/book.xlsx") None
           (u "d/book_sheet1.csv")).
  vm_compute. do 5 right. by left.
Defined.

